(** * altair/utils/mimebundle.py: conversion of a chart spec to a mimebundle

    A shallow embedding of [spec_to_mimebundle],
    [_spec_to_mimebundle_with_engine] and [_validate_normalize_engine],
    together with the parts of Python they rely on (string methods, [repr]
    of a string, exceptions, the [with] statement), and the properties of
    the dispatch that the specification states. *)

From Stdlib Require Import ZArith String Ascii List Bool Lia.
From stdpp Require Import base option gmap strings fin_maps.

Local Open Scope string_scope.

(** ** Python strings

    A Python [str] is modelled as a Rocq [string] whose characters are the
    code points U+0000..U+00FF, one [ascii] per code point. *)
Module PyString.

Definition code (c : ascii) : N := N_of_ascii c.

(** [str.lower] on one code point below 256: the letters A-Z, and the
    Latin-1 capitals U+00C0..U+00DE apart from the multiplication sign
    U+00D7, move up by 32. *)
Definition lower_char (c : ascii) : ascii :=
  let n := code c in
  if ((65 <=? n) && (n <=? 90))%N then ascii_of_N (n + 32)
  else if ((192 <=? n) && (n <=? 222) && negb (n =? 215))%N
       then ascii_of_N (n + 32)
  else c.

Fixpoint lower (s : string) : string :=
  match s with
  | EmptyString => EmptyString
  | String c rest => String (lower_char c) (lower rest)
  end.

(** [s.replace(old, new)] where [old] is the one-character string [c]. *)
Fixpoint replace (c : ascii) (new : string) (s : string) : string :=
  match s with
  | EmptyString => EmptyString
  | String d rest =>
      if Ascii.eqb d c then new +:+ replace c new rest
      else String d (replace c new rest)
  end.

(** [s.split(sep)] where [sep] is the one-character string [c]; [acc]
    holds the current field, reversed. *)
Fixpoint split_from (c : ascii) (acc : string) (s : string) : list string :=
  match s with
  | EmptyString => [String.rev acc]
  | String d rest =>
      if Ascii.eqb d c then String.rev acc :: split_from c EmptyString rest
      else split_from c (String d acc) rest
  end.

Definition split (c : ascii) (s : string) : list string :=
  split_from c EmptyString s.

(** [sep.join(parts)] *)
Fixpoint join (sep : string) (parts : list string) : string :=
  match parts with
  | [] => EmptyString
  | [p] => p
  | p :: rest => p +:+ sep +:+ join sep rest
  end.

(** [s[0]]: the one-character string at index 0, if any. *)
Definition first (s : string) : option string :=
  match s with
  | EmptyString => None
  | String c _ => Some (String c EmptyString)
  end.

Fixpoint contains (c : ascii) (s : string) : bool :=
  match s with
  | EmptyString => false
  | String d rest => Ascii.eqb d c || contains c rest
  end.

Definition squote : ascii := "039"%char.
Definition dquote : ascii := "034"%char.
Definition backslash : ascii := "092"%char.

Definition hex_digit (n : N) : ascii :=
  if (n <? 10)%N then ascii_of_N (48 + n) else ascii_of_N (87 + n).

(** The escape [\xhh] of a code point. *)
Definition hex_escape (c : ascii) : string :=
  let n := code c in
  String backslash
    (String "x" (String (hex_digit (n / 16)) (String (hex_digit (n mod 16)) EmptyString))).

(** Code points below 256 that [repr] writes as they are. *)
Definition printable (c : ascii) : bool :=
  let n := code c in
  ((32 <=? n) && (n <? 127) || (161 <=? n) && negb (n =? 173))%N.

Definition repr_char (quote : ascii) (c : ascii) : string :=
  if Ascii.eqb c quote || Ascii.eqb c backslash
  then String backslash (String c EmptyString)
  else if Ascii.eqb c "009" then String backslash "t"
  else if Ascii.eqb c "010" then String backslash "n"
  else if Ascii.eqb c "013" then String backslash "r"
  else if printable c then String c EmptyString
  else hex_escape c.

Fixpoint repr_body (quote : ascii) (s : string) : string :=
  match s with
  | EmptyString => EmptyString
  | String c rest => repr_char quote c +:+ repr_body quote rest
  end.

(** [repr(s)] of a string: single quotes, unless the string holds a
    single quote and no double quote. *)
Definition repr (s : string) : string :=
  let quote := if contains squote s && negb (contains dquote s)
               then dquote else squote in
  String quote (repr_body quote s +:+ String quote EmptyString).

End PyString.

(** ** Python values, exceptions and outcomes *)

(** The values the string-typed arguments and the keyword options can
    hold: [None], booleans, integers, floats (mantissa and binary
    exponent) and strings. Sequences other than strings (tuple, list,
    bytes) are not among them; nothing below speaks for such a value. *)
Inductive pyval : Type :=
| PyNone
| PyBool (b : bool)
| PyInt (z : Z)
| PyFloat (mantissa exponent : Z)
| PyStr (s : string).

(** [type(v).__name__] *)
Definition type_name (v : pyval) : string :=
  match v with
  | PyNone => "NoneType"
  | PyBool _ => "bool"
  | PyInt _ => "int"
  | PyFloat _ _ => "float"
  | PyStr _ => "str"
  end.

(** [v == s] for a string literal [s]: only a string equals a string. *)
Definition py_eq_str (v : pyval) (s : string) : bool :=
  match v with
  | PyStr t => String.eqb t s
  | _ => false
  end.

(** [v in [s1, ..., sn]] for a list of string literals. *)
Definition py_in (v : pyval) (choices : list string) : bool :=
  existsb (py_eq_str v) choices.

Inductive exn_kind : Type :=
| ValueError
| AssertionError
| IndexError
| TypeError
| AttributeError
| ImportError
| Foreign (name : string).

(** An exception: its class and its message. InvalidArgument of the
    specification is [ValueError]. *)
Record exn : Type := PyExn { exn_class : exn_kind; exn_message : string }.

Inductive outcome (A : Type) : Type :=
| Returned (a : A)
| Raised (e : exn).

Arguments Returned {A} a.
Arguments Raised {A} e.

Definition is_invalid_argument {A : Type} (o : outcome A) : Prop :=
  exists msg, o = Raised (PyExn ValueError msg).

(** [v[0]] on the values of [pyval]: a string gives its first character
    or [IndexError]; [None], a boolean and a number are not
    subscriptable. A tuple, a list or bytes, which Python would index,
    is not a [pyval]. *)
Definition py_index0 (v : pyval) : outcome string :=
  match v with
  | PyStr s =>
      match PyString.first s with
      | Some c => Returned c
      | None => Raised (PyExn IndexError "string index out of range")
      end
  | _ => Raised (PyExn TypeError
                   ("'" +:+ type_name v +:+ "' object is not subscriptable"))
  end.

(** ** The data-transformer registry *)

(** Modelled from the spec: the data-transformer registry
    ([..vegalite.v5.data.data_transformers]) is not among the sources. Its
    state is the name of the active transformer and the "disable max rows"
    toggle; [enable] and [disable_max_rows] are scoped: each remembers the
    state it found and its exit puts that state back. *)
Record registry_state : Type := {
  active : string;
  max_rows_disabled : bool
}.

Record plugin_enabler : Type := { original_state : registry_state }.

(** ** Computations: an outcome and the registry state after it *)

Definition M (A : Type) : Type := registry_state -> outcome A * registry_state.

Definition ret {A : Type} (a : A) : M A := fun s => (Returned a, s).

Definition raise {A : Type} (k : exn_kind) (msg : string) : M A :=
  fun s => (Raised (PyExn k msg), s).

Definition bind {A B : Type} (m : M A) (f : A -> M B) : M B :=
  fun s =>
    match m s with
    | (Returned a, s') => f a s'
    | (Raised e, s') => (Raised e, s')
    end.

Definition lift {A : Type} (o : outcome A) : M A := fun s => (o, s).

Notation "x <- m ;; k" := (bind m (fun x => k))
  (at level 100, m at next level, right associativity).

(** Modelled from the spec: [data_transformers.enable(name)]. *)
Definition enable (name : string) : M plugin_enabler :=
  fun s =>
    (Returned {| original_state := s |},
     {| active := name; max_rows_disabled := max_rows_disabled s |}).

(** Modelled from the spec: [data_transformers.disable_max_rows()]. *)
Definition disable_max_rows : M plugin_enabler :=
  fun s =>
    (Returned {| original_state := s |},
     {| active := active s; max_rows_disabled := true |}).

(** Modelled from the spec: the exit of a scoped override. *)
Definition enabler_exit (en : plugin_enabler) : registry_state -> registry_state :=
  fun _ => original_state en.

(** [with cm: body]: the context expression is evaluated, then the body;
    the exit runs whether the body returned or raised, and the body's
    outcome is the outcome of the statement. *)
Definition with_ {A : Type} (cm : M plugin_enabler) (body : M A) : M A :=
  fun s =>
    match cm s with
    | (Raised e, s1) => (Raised e, s1)
    | (Returned en, s1) =>
        let (r, s2) := body s1 in (r, enabler_exit en s2)
    end.

(** ** Mimebundles and the collaborators *)

Section Mimebundle.

(** The chart specification is never looked into: it is passed through. *)
Context {Spec : Type}.

Inductive payload : Type :=
| PaySpec (spec : Spec)
| PayText (text : string)
| PayBytes (data : list Init.Byte.byte).

(** A mimebundle is a Python dict from MIME type to payload,
    [gmap string payload]; the keyword options ([**kwargs]) are a dict
    from name to value, [gmap string pyval]. *)

(** The [vl_convert] package, when it can be imported. *)
Record vl_convert_module : Type := {
  vegalite_to_vega : Spec -> string -> M Spec;
  vegalite_to_svg : Spec -> string -> M string;
  vegalite_to_png : Spec -> string -> pyval -> M (list Init.Byte.byte)
}.

(** The [altair_saver] package, when it can be imported:
    [render(spec, format, mode=mode, **kwargs)]. *)
Record altair_saver_module : Type := {
  render : Spec -> string -> pyval -> gmap string pyval -> M (gmap string payload)
}.

(** What the module finds around it: the two optional packages ([None]
    when the import raises [ImportError]), the HTML generator
    [.html.spec_to_html], the constant [..vegalite.SCHEMA_VERSION], and
    the interpreter's [__debug__] flag ([assert] statements are executed
    only when it is set; it is set unless Python runs with [-O]). *)
Record environment : Type := {
  vl_convert : option vl_convert_module;
  altair_saver : option altair_saver_module;
  spec_to_html : Spec -> pyval -> pyval -> pyval -> pyval -> gmap string pyval -> M string;
  SCHEMA_VERSION : string;
  debug : bool
}.

Variable env : environment.

(** [engine.lower()], then every "-" and every "_" replaced by the empty
    string. *)
Definition normalize_engine_name (engine : string) : string :=
  PyString.replace "_" EmptyString
    (PyString.replace "-" EmptyString (PyString.lower engine)).

Definition newline : string := String "010" EmptyString.

(** [x is not None] for an optional package. *)
Definition imported {A : Type} (package : option A) : bool :=
  match package with
  | Some _ => true
  | None => false
  end.

(** The three shapes of [engine]: [None] leaves [normalized_engine] at
    [None]; a string is normalized and compared; any other value has no
    [lower] method. The last [else] of the source is reached only with a
    string, whose [repr] goes into the message. *)
Definition _validate_normalize_engine (engine : pyval) (format : string)
  : outcome string :=
  let vlc := vl_convert env in
  let altair_saver := altair_saver env in
  match engine with
  | PyStr s =>
      let normalized_engine := normalize_engine_name s in
      if String.eqb normalized_engine "vlconvert" then
        if negb (imported vlc) then
          Raised (PyExn ValueError
            "The 'vl-convert' conversion engine requires the vl-convert-python package")
        else if String.eqb format "pdf" then
          Raised (PyExn ValueError
            ("The 'vl-convert' conversion engine does not support the "
             +:+ PyString.repr format +:+ " format." +:+ newline
             +:+ "Use the 'altair_saver' engine instead"))
        else Returned normalized_engine
      else if String.eqb normalized_engine "altairsaver" then
        if negb (imported altair_saver) then
          Raised (PyExn ValueError
            "The 'altair_saver' conversion engine requires the altair_saver package")
        else Returned normalized_engine
      else
        Raised (PyExn ValueError
          ("Invalid conversion engine " +:+ PyString.repr s
           +:+ ". Expected one of ('vl-convert', 'altair_saver')"))
  | PyNone =>
      if imported vlc && negb (String.eqb format "pdf") then
        Returned "vlconvert"
      else if imported altair_saver then
        Returned "altairsaver"
      else if String.eqb format "pdf" then
        Raised (PyExn ValueError
          ("Saving charts in " +:+ PyString.repr format
           +:+ " format requires the altair_saver package: "
           +:+ "see http://github.com/altair-viz/altair_saver/"))
      else
        Raised (PyExn ValueError
          ("Saving charts in " +:+ PyString.repr format
           +:+ " format requires the vl-convert-python or altair_saver package: "
           +:+ "see http://github.com/altair-viz/altair_saver/"))
  | _ =>
      Raised (PyExn AttributeError
        ("'" +:+ type_name engine +:+ "' object has no attribute 'lower'"))
  end.

(** [import vl_convert as vlc] and [import altair_saver] in
    [_spec_to_mimebundle_with_engine]. *)
Definition import_package {A : Type} (name : string) (package : option A) : M A :=
  match package with
  | Some m => ret m
  | None => raise ImportError ("No module named '" +:+ name +:+ "'")
  end.

(** The body of the [with] statement: dispatch on [format] to the
    converter. *)
Definition vlconvert_dispatch (vlc : vl_convert_module) (spec : Spec)
    (format : string) (vl_version : string) (kwargs : gmap string pyval)
  : M (gmap string payload) :=
  if String.eqb format "vega" then
    vg <- vegalite_to_vega vlc spec vl_version ;;
    ret {[ "application/vnd.vega.v5+json" := PaySpec vg ]}
  else if String.eqb format "svg" then
    svg <- vegalite_to_svg vlc spec vl_version ;;
    ret {[ "image/svg+xml" := PayText svg ]}
  else if String.eqb format "png" then
    png <- vegalite_to_png vlc spec vl_version
             (default (PyFloat 1 0) (kwargs !! "scale_factor")) ;;
    ret {[ "image/png" := PayBytes png ]}
  else
    raise ValueError ("Unexpected format " +:+ PyString.repr format).

Definition _spec_to_mimebundle_with_engine (spec : Spec) (format : string)
    (mode : pyval) (kwargs : gmap string pyval) : M (gmap string payload) :=
  (* engine = kwargs.pop("engine", None) *)
  let engine := default PyNone (kwargs !! "engine") in
  let kwargs := delete "engine" kwargs in
  normalized_engine <- lift (_validate_normalize_engine engine format) ;;
  if String.eqb normalized_engine "vlconvert" then
    vlc <- import_package "vl_convert" (vl_convert env) ;;
    let vl_version :=
      PyString.join "_" (take 2 (PyString.split "." (SCHEMA_VERSION env))) in
    with_ (enable "default")
      (with_ disable_max_rows
         (vlconvert_dispatch vlc spec format vl_version kwargs))
  else if String.eqb normalized_engine "altairsaver" then
    saver <- import_package "altair_saver" (altair_saver env) ;;
    render saver spec format mode kwargs
  else
    raise ValueError
      ("Unexpected normalized_engine " +:+ PyString.repr normalized_engine).

(** The keyword options never hold the names of the function's own
    parameters ([spec], [format], [mode] and the three versions): Python
    binds those to the parameters. *)
Definition spec_to_mimebundle (spec : Spec) (format : pyval) (mode : pyval)
    (vega_version vegaembed_version vegalite_version : pyval)
    (kwargs : gmap string pyval) : M (gmap string payload) :=
  if negb (py_in mode ["vega"; "vega-lite"]) then
    raise ValueError "mode must be either 'vega' or 'vega-lite'"
  else if py_eq_str mode "vega" && py_eq_str format "vega" then
    match vega_version with
    | PyNone => raise ValueError "Must specify vega_version"
    | _ =>
        major <- lift (py_index0 vega_version) ;;
        ret {[ "application/vnd.vega.v" +:+ major +:+ "+json" := PaySpec spec ]}
    end
  else
    match format with
    | PyStr f =>
        if existsb (String.eqb f) ["png"; "svg"; "pdf"; "vega"] then
          _spec_to_mimebundle_with_engine spec f mode kwargs
        else if String.eqb f "html" then
          html <- spec_to_html env spec mode vega_version vegaembed_version
                    vegalite_version kwargs ;;
          ret {[ "text/html" := PayText html ]}
        else if String.eqb f "vega-lite" then
          if debug env && negb (py_eq_str mode "vega-lite") then
            raise AssertionError EmptyString
          else if py_eq_str mode "vega" then
            raise ValueError "Cannot convert a vega spec to vegalite"
          else
            match vegalite_version with
            | PyNone => raise ValueError "Must specify vegalite_version"
            | _ =>
                major <- lift (py_index0 vegalite_version) ;;
                ret {[ "application/vnd.vegalite.v" +:+ major +:+ "+json"
                       := PaySpec spec ]}
            end
        else if String.eqb f "json" then
          ret {[ "application/json" := PaySpec spec ]}
        else
          raise ValueError
            ("format must be one of "
             +:+ "['html', 'json', 'png', 'svg', 'pdf', 'vega', 'vega-lite']")
    | _ =>
        raise ValueError
          ("format must be one of "
           +:+ "['html', 'json', 'png', 'svg', 'pdf', 'vega', 'vega-lite']")
    end.

End Mimebundle.

Arguments environment Spec : clear implicits.
Arguments payload Spec : clear implicits.
Arguments vl_convert_module Spec : clear implicits.
Arguments altair_saver_module Spec : clear implicits.

(** ** Two of the resolver's messages, as the code formats them *)

Definition pdf_unsupported_message : string :=
  "The 'vl-convert' conversion engine does not support the 'pdf' format."
  +:+ newline +:+ "Use the 'altair_saver' engine instead".

Definition invalid_engine_message (engine : string) : string :=
  "Invalid conversion engine " +:+ PyString.repr engine
  +:+ ". Expected one of ('vl-convert', 'altair_saver')".

(** ** Sample surroundings, for running the functions

    A spec is a flat dict here; the converter and the saver are stand-ins
    that answer with fixed payloads. *)

Definition sample_spec : gmap string pyval := {[ "mark" := PyStr "bar" ]}.

Definition sample_state : registry_state :=
  {| active := "json"; max_rows_disabled := false |}.

Definition sample_vl_convert : vl_convert_module (gmap string pyval) := {|
  vegalite_to_vega := fun spec _ => ret (<[ "$schema" := PyStr "vega" ]> spec);
  vegalite_to_svg := fun _ _ => ret "<svg/>";
  vegalite_to_png := fun _ _ _ => ret [Init.Byte.x89; Init.Byte.x50]
|}.

(** A converter whose PNG answer tells the scale it was given: one byte
    for 1.0, two bytes for any other scale. *)
Definition scaling_vl_convert : vl_convert_module (gmap string pyval) := {|
  vegalite_to_vega := fun spec _ => ret spec;
  vegalite_to_svg := fun _ _ => ret "<svg/>";
  vegalite_to_png := fun _ _ scale =>
    ret (match scale with
         | PyFloat 1 0 => [Init.Byte.x01]
         | _ => [Init.Byte.x02; Init.Byte.x02]
         end)
|}.

(** A converter whose every entry point switches the active transformer
    and then raises. *)
Definition conversion_failure {A : Type} : M A :=
  fun s =>
    (Raised (PyExn (Foreign "RuntimeError") "conversion failed"),
     {| active := "csv"; max_rows_disabled := max_rows_disabled s |}).

Definition failing_vl_convert : vl_convert_module (gmap string pyval) := {|
  vegalite_to_vega := fun _ _ => conversion_failure;
  vegalite_to_svg := fun _ _ => conversion_failure;
  vegalite_to_png := fun _ _ _ => conversion_failure
|}.

(** A saver that answers with one entry for the format asked. *)
Definition sample_saver : altair_saver_module (gmap string pyval) := {|
  render := fun spec format _ _ => ret {[ format := PaySpec spec ]}
|}.

(** Modelled from the spec: [altair_saver.render] is not among the
    sources. The spec has its result returned "unmodified as the
    mimebundle", and a mimebundle is "a mapping from exactly one MIME-type
    string to one payload": whenever the installed saver returns, the
    mapping it returns has one entry. *)
Definition render_returns_mimebundle {Spec : Type} (env : environment Spec)
  : Prop :=
  forall (saver : altair_saver_module Spec) (spec : Spec) (format : string)
         (mode : pyval) (kwargs : gmap string pyval) (s s' : registry_state)
         (b : gmap string (payload Spec)),
    altair_saver env = Some saver ->
    render saver spec format mode kwargs s = (Returned b, s') ->
    size b = 1.

Definition sample_env (vlc : option (vl_convert_module (gmap string pyval)))
    (saver : option (altair_saver_module (gmap string pyval)))
  : environment (gmap string pyval) := {|
  vl_convert := vlc;
  altair_saver := saver;
  spec_to_html := fun _ _ _ _ _ _ => ret "<html/>";
  SCHEMA_VERSION := "v5.2.0";
  debug := true
|}.

(** ** Python strings: checks on concrete inputs *)

Example lower_mixed : PyString.lower "VL_Convert" = "vl_convert".
Proof. reflexivity. Qed.

Example split_schema : PyString.split "." "v5.2.0" = ["v5"; "2"; "0"].
Proof. reflexivity. Qed.

Example vl_version_of_schema :
  PyString.join "_" (take 2 (PyString.split "." "v5.2.0")) = "v5_2".
Proof. reflexivity. Qed.

Example repr_pdf : PyString.repr "pdf" = "'pdf'".
Proof. reflexivity. Qed.

Example normalize_vl_convert :
  normalize_engine_name "VL_Convert" = "vlconvert"
  /\ normalize_engine_name "vl-convert" = "vlconvert"
  /\ normalize_engine_name "altair_saver" = "altairsaver".
Proof. repeat split; reflexivity. Qed.

(** ** The mode guard and the passthrough formats *)

Lemma py_eq_str_true (v : pyval) (s : string) :
  py_eq_str v s = true <-> v = PyStr s.
Proof.
  destruct v; simpl; try (split; [discriminate | congruence]).
  rewrite String.eqb_eq. split; congruence.
Qed.

Lemma py_eq_str_false (v : pyval) (s : string) :
  py_eq_str v s = false <-> v <> PyStr s.
Proof.
  rewrite <- py_eq_str_true. destruct (py_eq_str v s); split; congruence.
Qed.

(** The first statement of [spec_to_mimebundle]: with a mode that is
    neither of the two strings, nothing else is looked at. *)
Lemma mode_guard {Spec : Type} (env : environment Spec) (spec : Spec)
    (format mode vega_version vegaembed_version vegalite_version : pyval)
    (kwargs : gmap string pyval) (s : registry_state) :
  mode <> PyStr "vega" -> mode <> PyStr "vega-lite" ->
  spec_to_mimebundle env spec format mode vega_version vegaembed_version
    vegalite_version kwargs s
  = (Raised (PyExn ValueError "mode must be either 'vega' or 'vega-lite'"), s).
Proof.
  intros Hv Hl. apply py_eq_str_false in Hv, Hl.
  unfold spec_to_mimebundle, py_in. cbn [existsb].
  rewrite Hv, Hl. reflexivity.
Qed.

(** C1: with mode "vega", format "vega" and a non-empty string as
    [vega_version], the call returns the one-entry mapping from
    "application/vnd.vega.v<major>+json" to the spec, where <major> is the
    first character of [vega_version]; the registry is left as it was. *)
Theorem vega_passthrough {Spec : Type} (env : environment Spec) (spec : Spec)
    (major : ascii) (rest : string) (vegaembed_version vegalite_version : pyval)
    (kwargs : gmap string pyval) (s : registry_state) :
  let bundle : gmap string (payload Spec) :=
    {[ "application/vnd.vega.v" +:+ String major EmptyString +:+ "+json" := PaySpec spec ]} in
  spec_to_mimebundle env spec (PyStr "vega") (PyStr "vega")
    (PyStr (String major rest)) vegaembed_version vegalite_version kwargs s
  = (Returned bundle, s)
  /\ size bundle = 1.
Proof.
  split; [reflexivity | apply map_size_singleton].
Qed.

Example vega_passthrough_5_20_0 :
  spec_to_mimebundle (sample_env None None) sample_spec (PyStr "vega")
    (PyStr "vega") (PyStr "5.20.0") PyNone PyNone ∅ sample_state
  = (Returned {[ "application/vnd.vega.v5+json" := PaySpec sample_spec ]},
     sample_state).
Proof. reflexivity. Qed.

Example vegalite_passthrough_5_2_0 :
  spec_to_mimebundle (sample_env None None) sample_spec (PyStr "vega-lite")
    (PyStr "vega-lite") PyNone PyNone (PyStr "5.2.0") ∅ sample_state
  = (Returned {[ "application/vnd.vegalite.v5+json" := PaySpec sample_spec ]},
     sample_state).
Proof. reflexivity. Qed.

(** C2: with a mode that is not the string "vega" and not the string
    "vega-lite" ([None] included), the call raises [ValueError]
    (InvalidArgument), whatever the other arguments are. *)
Theorem invalid_mode_rejected {Spec : Type} (env : environment Spec)
    (spec : Spec)
    (format mode vega_version vegaembed_version vegalite_version : pyval)
    (kwargs : gmap string pyval) (s : registry_state) :
  mode <> PyStr "vega" -> mode <> PyStr "vega-lite" ->
  spec_to_mimebundle env spec format mode vega_version vegaembed_version
    vegalite_version kwargs s
  = (Raised (PyExn ValueError "mode must be either 'vega' or 'vega-lite'"), s).
Proof. apply mode_guard. Qed.

Lemma invalid_mode_rejected_witness :
  PyNone <> PyStr "vega" /\ PyNone <> PyStr "vega-lite"
  /\ spec_to_mimebundle (sample_env None None) sample_spec (PyStr "json")
       PyNone (PyStr "5.20.0") PyNone (PyStr "5.2.0") ∅ sample_state
     = (Raised (PyExn ValueError "mode must be either 'vega' or 'vega-lite'"),
        sample_state).
Proof.
  split; [discriminate |]. split; [discriminate |].
  apply invalid_mode_rejected; discriminate.
Defined.

(** C7, as the code has it: with format "json" and a mode that is "vega"
    or "vega-lite", the call returns exactly the mapping from
    "application/json" to the spec, whatever the version arguments and
    options are; with any other mode (the default [None] included) the
    mode guard comes first and the call raises [ValueError]. *)
Theorem json_bundle {Spec : Type} (env : environment Spec) (spec : Spec)
    (mode vega_version vegaembed_version vegalite_version : pyval)
    (kwargs : gmap string pyval) (s : registry_state) :
  (mode = PyStr "vega" \/ mode = PyStr "vega-lite" ->
   spec_to_mimebundle env spec (PyStr "json") mode vega_version
     vegaembed_version vegalite_version kwargs s
   = (Returned {[ "application/json" := PaySpec spec ]}, s))
  /\ (mode <> PyStr "vega" -> mode <> PyStr "vega-lite" ->
      is_invalid_argument
        (fst (spec_to_mimebundle env spec (PyStr "json") mode vega_version
                vegaembed_version vegalite_version kwargs s))).
Proof.
  split.
  - intros [-> | ->]; reflexivity.
  - intros Hv Hl. rewrite mode_guard by assumption. eexists. reflexivity.
Qed.

Lemma json_bundle_witness :
  spec_to_mimebundle (sample_env None None) sample_spec (PyStr "json")
    (PyStr "vega-lite") PyNone PyNone PyNone ∅ sample_state
  = (Returned {[ "application/json" := PaySpec sample_spec ]}, sample_state)
  /\ is_invalid_argument
       (fst (spec_to_mimebundle (sample_env None None) sample_spec
               (PyStr "json") (PyInt 3) PyNone PyNone PyNone ∅ sample_state)).
Proof.
  split.
  - apply (proj1 (json_bundle (sample_env None None) sample_spec
                    (PyStr "vega-lite") PyNone PyNone PyNone ∅ sample_state)).
    right. reflexivity.
  - apply (proj2 (json_bundle (sample_env None None) sample_spec
                    (PyInt 3) PyNone PyNone PyNone ∅ sample_state));
      discriminate.
Defined.

(** C7 as stated fails: with the default mode [None], format "json" does
    not return the bundle. *)
Lemma json_default_mode_counterexample :
  ~ (forall mode : pyval,
       spec_to_mimebundle (sample_env None None) sample_spec (PyStr "json")
         mode PyNone PyNone PyNone ∅ sample_state
       = (Returned {[ "application/json" := PaySpec sample_spec ]},
          sample_state)).
Proof.
  intros H. specialize (H PyNone).
  rewrite mode_guard in H by discriminate. discriminate H.
Qed.

(** Mode "vega" with format "vega-lite" reaches the [assert] of the
    "vega-lite" branch. When [assert] statements run (the interpreter's
    default) the call raises [AssertionError]; the [ValueError] written on
    the next line is raised only when they are compiled away. *)
Lemma vega_to_vegalite_failure {Spec : Type} (env : environment Spec)
    (spec : Spec) (vega_version vegaembed_version vegalite_version : pyval)
    (kwargs : gmap string pyval) (s : registry_state) :
  spec_to_mimebundle env spec (PyStr "vega-lite") (PyStr "vega") vega_version
    vegaembed_version vegalite_version kwargs s
  = (Raised (if debug env
             then PyExn AssertionError EmptyString
             else PyExn ValueError "Cannot convert a vega spec to vegalite"),
     s).
Proof.
  unfold spec_to_mimebundle. cbn. destruct (debug env); reflexivity.
Qed.

(** C5: the call with mode "vega" and format "vega-lite", run on the
    sample surroundings, raises [AssertionError]: the failure is not the
    [ValueError] (InvalidArgument) of a validation failure. *)
Theorem vega_to_vegalite_assertion :
  spec_to_mimebundle (sample_env None None) sample_spec (PyStr "vega-lite")
    (PyStr "vega") (PyStr "5.20.0") PyNone (PyStr "5.2.0") ∅ sample_state
  = (Raised (PyExn AssertionError EmptyString), sample_state)
  /\ ~ is_invalid_argument
         (fst (spec_to_mimebundle (sample_env None None) sample_spec
                 (PyStr "vega-lite") (PyStr "vega") (PyStr "5.20.0") PyNone
                 (PyStr "5.2.0") ∅ sample_state)).
Proof.
  split; [reflexivity |]. intros [msg H]. discriminate H.
Qed.

(** C6, as the code has it: on the two passthrough paths a version that is
    absent ([None]) makes the call raise [ValueError] (InvalidArgument). *)
Theorem missing_version_rejected {Spec : Type} (env : environment Spec)
    (spec : Spec) (vega_version vegaembed_version vegalite_version : pyval)
    (kwargs : gmap string pyval) (s : registry_state) :
  spec_to_mimebundle env spec (PyStr "vega") (PyStr "vega") PyNone
    vegaembed_version vegalite_version kwargs s
  = (Raised (PyExn ValueError "Must specify vega_version"), s)
  /\ spec_to_mimebundle env spec (PyStr "vega-lite") (PyStr "vega-lite")
       vega_version vegaembed_version PyNone kwargs s
     = (Raised (PyExn ValueError "Must specify vegalite_version"), s).
Proof.
  split; unfold spec_to_mimebundle; cbn;
    try (destruct (debug env)); reflexivity.
Qed.

(** The guard of the passthrough paths is [is None]: an empty version
    string passes it, and taking its first character raises
    [IndexError]. *)
Lemma empty_version_index_error {Spec : Type} (env : environment Spec)
    (spec : Spec) (vega_version vegaembed_version vegalite_version : pyval)
    (kwargs : gmap string pyval) (s : registry_state) :
  spec_to_mimebundle env spec (PyStr "vega") (PyStr "vega") (PyStr EmptyString)
    vegaembed_version vegalite_version kwargs s
  = (Raised (PyExn IndexError "string index out of range"), s)
  /\ spec_to_mimebundle env spec (PyStr "vega-lite") (PyStr "vega-lite")
       vega_version vegaembed_version (PyStr EmptyString) kwargs s
     = (Raised (PyExn IndexError "string index out of range"), s).
Proof.
  split; unfold spec_to_mimebundle; cbn;
    try (destruct (debug env)); reflexivity.
Qed.

(** C6 as stated fails: an empty [vega_version] does not give
    InvalidArgument. *)
Lemma empty_version_counterexample :
  ~ is_invalid_argument
      (fst (spec_to_mimebundle (sample_env None None) sample_spec
              (PyStr "vega") (PyStr "vega") (PyStr EmptyString) PyNone PyNone ∅
              sample_state))
  /\ ~ is_invalid_argument
         (fst (spec_to_mimebundle (sample_env None None) sample_spec
                 (PyStr "vega-lite") (PyStr "vega-lite") PyNone PyNone
                 (PyStr EmptyString) ∅ sample_state)).
Proof.
  split; intros [msg H]; discriminate H.
Qed.

(** ** The engine resolver *)

Lemma imported_true {A : Type} (package : option A) :
  imported package = true <-> is_Some package.
Proof.
  destruct package as [m |]; simpl; split; intros H;
    eauto; try discriminate. destruct H; discriminate.
Qed.

Lemma imported_false {A : Type} (package : option A) :
  imported package = false <-> package = None.
Proof. destruct package; simpl; split; congruence. Qed.

Lemma eqb_pdf_false (format : string) :
  format <> "pdf" -> String.eqb format "pdf" = false.
Proof. apply String.eqb_neq. Qed.

(** C3: with no engine override, the resolver answers "vlconvert" when
    vl-convert is present and the format is not "pdf"; otherwise
    "altairsaver" when altair_saver is present; otherwise it raises
    [ValueError], whose message names the altair_saver package alone for
    "pdf" and both packages for any other format. *)
Theorem default_engine_resolution {Spec : Type} (env : environment Spec)
    (format : string) :
  (is_Some (vl_convert env) -> format <> "pdf" ->
   _validate_normalize_engine env PyNone format = Returned "vlconvert")
  /\ (vl_convert env = None \/ format = "pdf" ->
      is_Some (altair_saver env) ->
      _validate_normalize_engine env PyNone format = Returned "altairsaver")
  /\ (altair_saver env = None -> format = "pdf" ->
      _validate_normalize_engine env PyNone format
      = Raised (PyExn ValueError
          ("Saving charts in 'pdf' format requires the altair_saver package: "
           +:+ "see http://github.com/altair-viz/altair_saver/")))
  /\ (vl_convert env = None -> altair_saver env = None -> format <> "pdf" ->
      _validate_normalize_engine env PyNone format
      = Raised (PyExn ValueError
          ("Saving charts in " +:+ PyString.repr format
           +:+ " format requires the vl-convert-python or altair_saver package: "
           +:+ "see http://github.com/altair-viz/altair_saver/"))).
Proof.
  unfold _validate_normalize_engine. repeat split.
  - intros Hv%imported_true Hf%eqb_pdf_false. rewrite Hv, Hf. reflexivity.
  - intros Hor Hs%imported_true. rewrite Hs.
    destruct Hor as [Hv%imported_false | ->].
    + rewrite Hv. reflexivity.
    + rewrite andb_false_r. reflexivity.
  - intros Hs%imported_false ->. rewrite Hs, andb_false_r. reflexivity.
  - intros Hv%imported_false Hs%imported_false Hf%eqb_pdf_false.
    rewrite Hv, Hs, Hf. reflexivity.
Qed.

Lemma default_engine_resolution_witness :
  _validate_normalize_engine
    (sample_env (Some sample_vl_convert) (Some sample_saver)) PyNone "png"
  = Returned "vlconvert"
  /\ _validate_normalize_engine
       (sample_env (Some sample_vl_convert) (Some sample_saver)) PyNone "pdf"
     = Returned "altairsaver"
  /\ _validate_normalize_engine (sample_env (Some sample_vl_convert) None)
       PyNone "pdf"
     = Raised (PyExn ValueError
         ("Saving charts in 'pdf' format requires the altair_saver package: "
          +:+ "see http://github.com/altair-viz/altair_saver/"))
  /\ _validate_normalize_engine (sample_env None None) PyNone "svg"
     = Raised (PyExn ValueError
         ("Saving charts in 'svg' format requires the vl-convert-python or altair_saver package: "
          +:+ "see http://github.com/altair-viz/altair_saver/")).
Proof.
  split; [| split; [| split]].
  - apply (proj1 (default_engine_resolution
                    (sample_env (Some sample_vl_convert) (Some sample_saver))
                    "png")); [eexists; reflexivity | discriminate].
  - apply (proj1 (proj2 (default_engine_resolution
                    (sample_env (Some sample_vl_convert) (Some sample_saver))
                    "pdf"))); [right; reflexivity | eexists; reflexivity].
  - apply (proj1 (proj2 (proj2 (default_engine_resolution
                    (sample_env (Some sample_vl_convert) None) "pdf"))));
      reflexivity.
  - apply (proj2 (proj2 (proj2 (default_engine_resolution
                    (sample_env None None) "svg"))));
      [reflexivity | reflexivity | discriminate].
Defined.

(** C4, as the code has it: with format "pdf" and an override that
    normalizes to "vlconvert", resolution raises [ValueError]. When
    vl-convert is installed the message names the unsupported format for
    this engine and points to the altair_saver engine; when it is not
    installed the message names the missing vl-convert-python package. *)
Theorem pdf_vlconvert_rejected {Spec : Type} (env : environment Spec)
    (engine : string) :
  normalize_engine_name engine = "vlconvert" ->
  (is_Some (vl_convert env) ->
   _validate_normalize_engine env (PyStr engine) "pdf"
   = Raised (PyExn ValueError pdf_unsupported_message))
  /\ (vl_convert env = None ->
      _validate_normalize_engine env (PyStr engine) "pdf"
      = Raised (PyExn ValueError
          "The 'vl-convert' conversion engine requires the vl-convert-python package"))
  /\ is_invalid_argument (_validate_normalize_engine env (PyStr engine) "pdf").
Proof.
  intros Hn. unfold _validate_normalize_engine. rewrite Hn. cbn.
  repeat split.
  - intros Hv%imported_true. rewrite Hv. reflexivity.
  - intros Hv%imported_false. rewrite Hv. reflexivity.
  - destruct (imported (vl_convert env)); eexists; reflexivity.
Qed.

Lemma pdf_vlconvert_rejected_witness :
  normalize_engine_name "vl-convert" = "vlconvert"
  /\ _validate_normalize_engine (sample_env (Some sample_vl_convert) None)
       (PyStr "vl-convert") "pdf"
     = Raised (PyExn ValueError pdf_unsupported_message).
Proof.
  split; [reflexivity |].
  apply (pdf_vlconvert_rejected (sample_env (Some sample_vl_convert) None)
           "vl-convert"); [reflexivity | eexists; reflexivity].
Defined.

(** C4 as stated fails: without vl-convert installed the message is about
    the missing package, not about the format. *)
Lemma pdf_vlconvert_absent_counterexample :
  ~ (forall (env : environment (gmap string pyval)) (engine : string),
       normalize_engine_name engine = "vlconvert" ->
       _validate_normalize_engine env (PyStr engine) "pdf"
       = Raised (PyExn ValueError pdf_unsupported_message)).
Proof.
  intros H.
  specialize (H (sample_env None (Some sample_saver)) "vl-convert" eq_refl).
  vm_compute in H. discriminate H.
Qed.

(** ** The engine override in the whole render-with-engine call *)

(** The call depends on the override only through the resolver's answer. *)
Lemma with_engine_same_resolution {Spec : Type} (env : environment Spec)
    (spec : Spec) (format : string) (mode v1 v2 : pyval)
    (kwargs : gmap string pyval) (s : registry_state) :
  _validate_normalize_engine env v1 format
  = _validate_normalize_engine env v2 format ->
  _spec_to_mimebundle_with_engine env spec format mode
    (<[ "engine" := v1 ]> kwargs) s
  = _spec_to_mimebundle_with_engine env spec format mode
      (<[ "engine" := v2 ]> kwargs) s.
Proof.
  intros H. unfold _spec_to_mimebundle_with_engine.
  rewrite !lookup_insert_eq, !delete_insert_eq. simpl default.
  rewrite H. reflexivity.
Qed.

(** A failure of the resolver is the failure of the call. *)
Lemma with_engine_resolution_raises {Spec : Type} (env : environment Spec)
    (spec : Spec) (format : string) (mode : pyval)
    (kwargs : gmap string pyval) (s : registry_state) (e : exn) :
  _validate_normalize_engine env (default PyNone (kwargs !! "engine")) format
  = Raised e ->
  _spec_to_mimebundle_with_engine env spec format mode kwargs s = (Raised e, s).
Proof.
  intros H. unfold _spec_to_mimebundle_with_engine, bind, lift.
  rewrite H. reflexivity.
Qed.

Lemma resolve_valid_name {Spec : Type} (env : environment Spec)
    (e1 e2 format : string) :
  normalize_engine_name e1 = normalize_engine_name e2 ->
  normalize_engine_name e1 = "vlconvert"
  \/ normalize_engine_name e1 = "altairsaver" ->
  _validate_normalize_engine env (PyStr e1) format
  = _validate_normalize_engine env (PyStr e2) format.
Proof.
  intros Heq Hvalid. unfold _validate_normalize_engine. rewrite <- Heq.
  destruct Hvalid as [-> | ->]; reflexivity.
Qed.

Lemma resolve_invalid_name {Spec : Type} (env : environment Spec)
    (e format : string) :
  normalize_engine_name e <> "vlconvert" ->
  normalize_engine_name e <> "altairsaver" ->
  _validate_normalize_engine env (PyStr e) format
  = Raised (PyExn ValueError (invalid_engine_message e)).
Proof.
  intros Hv%String.eqb_neq Hs%String.eqb_neq.
  unfold _validate_normalize_engine. rewrite Hv, Hs. reflexivity.
Qed.

(** C8, as the code has it: two override strings with the same normalized
    name behave alike. When that name is one of the two engines, the
    resolver and the whole render-with-engine call give the same result
    for both. When it is not, both fail with [ValueError], each with a
    message that quotes the override as it was written. *)
Theorem engine_name_insensitive {Spec : Type} (env : environment Spec)
    (e1 e2 : string) (spec : Spec) (format : string) (mode : pyval)
    (kwargs : gmap string pyval) (s : registry_state) :
  normalize_engine_name e1 = normalize_engine_name e2 ->
  (normalize_engine_name e1 = "vlconvert"
   \/ normalize_engine_name e1 = "altairsaver" ->
   _validate_normalize_engine env (PyStr e1) format
   = _validate_normalize_engine env (PyStr e2) format
   /\ _spec_to_mimebundle_with_engine env spec format mode
        (<[ "engine" := PyStr e1 ]> kwargs) s
      = _spec_to_mimebundle_with_engine env spec format mode
          (<[ "engine" := PyStr e2 ]> kwargs) s)
  /\ (normalize_engine_name e1 <> "vlconvert" ->
      normalize_engine_name e1 <> "altairsaver" ->
      forall e, e = e1 \/ e = e2 ->
        _validate_normalize_engine env (PyStr e) format
        = Raised (PyExn ValueError (invalid_engine_message e))
        /\ _spec_to_mimebundle_with_engine env spec format mode
             (<[ "engine" := PyStr e ]> kwargs) s
           = (Raised (PyExn ValueError (invalid_engine_message e)), s)).
Proof.
  intros Heq. split.
  - intros Hvalid.
    pose proof (resolve_valid_name env e1 e2 format Heq Hvalid) as Hres.
    split; [exact Hres |]. apply with_engine_same_resolution, Hres.
  - intros Hv Hs e He.
    assert (Hres : _validate_normalize_engine env (PyStr e) format
                   = Raised (PyExn ValueError (invalid_engine_message e))).
    { apply resolve_invalid_name; destruct He as [-> | ->];
        rewrite <- ?Heq; assumption. }
    split; [exact Hres |].
    apply with_engine_resolution_raises.
    rewrite lookup_insert_eq. exact Hres.
Qed.

Lemma engine_name_insensitive_witness :
  normalize_engine_name "VL_Convert" = normalize_engine_name "vl-convert"
  /\ _spec_to_mimebundle_with_engine
       (sample_env (Some sample_vl_convert) None) sample_spec "svg"
       (PyStr "vega-lite") (<[ "engine" := PyStr "VL_Convert" ]> ∅) sample_state
     = _spec_to_mimebundle_with_engine
         (sample_env (Some sample_vl_convert) None) sample_spec "svg"
         (PyStr "vega-lite") (<[ "engine" := PyStr "vl-convert" ]> ∅)
         sample_state
  /\ _validate_normalize_engine (sample_env (Some sample_vl_convert) None)
       (PyStr "Foo") "svg"
     = Raised (PyExn ValueError (invalid_engine_message "Foo")).
Proof.
  split; [reflexivity |]. split.
  - apply (proj1 (engine_name_insensitive
                    (sample_env (Some sample_vl_convert) None)
                    "VL_Convert" "vl-convert" sample_spec "svg"
                    (PyStr "vega-lite") ∅ sample_state eq_refl)).
    left. reflexivity.
  - apply (proj2 (engine_name_insensitive
                    (sample_env (Some sample_vl_convert) None)
                    "Foo" "foo" sample_spec "svg"
                    (PyStr "vega-lite") ∅ sample_state eq_refl));
      [discriminate | discriminate | left; reflexivity].
Defined.

(** C8 as stated fails: "Foo" and "foo" normalize alike, and the two
    failures carry different messages. *)
Lemma engine_name_message_counterexample :
  normalize_engine_name "Foo" = normalize_engine_name "foo"
  /\ _validate_normalize_engine (sample_env (Some sample_vl_convert) None)
       (PyStr "Foo") "svg"
     <> _validate_normalize_engine (sample_env (Some sample_vl_convert) None)
          (PyStr "foo") "svg"
  /\ _spec_to_mimebundle_with_engine
       (sample_env (Some sample_vl_convert) None) sample_spec "svg"
       (PyStr "vega-lite") (<[ "engine" := PyStr "Foo" ]> ∅) sample_state
     <> _spec_to_mimebundle_with_engine
          (sample_env (Some sample_vl_convert) None) sample_spec "svg"
          (PyStr "vega-lite") (<[ "engine" := PyStr "foo" ]> ∅) sample_state.
Proof.
  split; [reflexivity |]. split.
  - vm_compute. discriminate.
  - rewrite !(with_engine_resolution_raises _ _ _ _ _ _
               (PyExn ValueError (invalid_engine_message _)))
      by (rewrite lookup_insert_eq; reflexivity).
    vm_compute. discriminate.
Qed.

(** ** The scoped override of the data transformer *)

Lemma with_enable {A : Type} (name : string) (body : M A) (s : registry_state) :
  with_ (enable name) body s
  = (fst (body {| active := name; max_rows_disabled := max_rows_disabled s |}), s).
Proof.
  unfold with_, enable, enabler_exit. simpl.
  destruct (body _) as [r s2]. reflexivity.
Qed.

Lemma with_disable_max_rows {A : Type} (body : M A) (s : registry_state) :
  with_ disable_max_rows body s
  = (fst (body {| active := active s; max_rows_disabled := true |}), s).
Proof.
  unfold with_, disable_max_rows, enabler_exit. simpl.
  destruct (body _) as [r s2]. reflexivity.
Qed.

(** The two nested overrides of the source: the body runs with the default
    transformer and row limiting off, and the state found at entry is the
    state at exit. *)
Lemma with_default_unlimited {A : Type} (body : M A) (s : registry_state) :
  with_ (enable "default") (with_ disable_max_rows body) s
  = (fst (body {| active := "default"; max_rows_disabled := true |}), s).
Proof. rewrite with_enable, with_disable_max_rows. reflexivity. Qed.

(** The resolver answers "vlconvert" only when the package is there. *)
Lemma resolved_vlconvert_imported {Spec : Type} (env : environment Spec)
    (engine : pyval) (format : string) :
  _validate_normalize_engine env engine format = Returned "vlconvert" ->
  is_Some (vl_convert env) /\ format <> "pdf".
Proof.
  unfold _validate_normalize_engine.
  destruct engine as [| b | z | m e | name]; try discriminate.
  - destruct (imported (vl_convert env)) eqn:Hv; simpl.
    + destruct (String.eqb_spec format "pdf") as [-> | Hf]; simpl.
      * destruct (imported (altair_saver env)); discriminate.
      * intros _. split; [apply imported_true, Hv | exact Hf].
    + destruct (imported (altair_saver env)); [discriminate |].
      destruct (String.eqb format "pdf"); discriminate.
  - destruct (String.eqb_spec (normalize_engine_name name) "vlconvert") as [Hn | Hn].
    + destruct (imported (vl_convert env)) eqn:Hv; simpl; [| discriminate].
      destruct (String.eqb_spec format "pdf") as [-> | Hf]; [discriminate |].
      intros _. split; [apply imported_true, Hv | exact Hf].
    + destruct (String.eqb (normalize_engine_name name) "altairsaver").
      * destruct (imported (altair_saver env)); simpl; [| discriminate].
        intros [= H]. contradiction.
      * discriminate.
Qed.

(** C9: when the call goes through the vl-convert engine, the converter
    runs with the default transformer active and row limiting off, and
    when the call ends, by a return or by an exception of the converter,
    the registry is in the state it was in when the call began. *)
Theorem transformer_override_restored {Spec : Type} (env : environment Spec)
    (spec : Spec) (format : string) (mode : pyval)
    (kwargs : gmap string pyval) (s : registry_state) :
  _validate_normalize_engine env (default PyNone (kwargs !! "engine")) format
  = Returned "vlconvert" ->
  exists vlc,
    vl_convert env = Some vlc
    /\ _spec_to_mimebundle_with_engine env spec format mode kwargs s
       = (fst (vlconvert_dispatch vlc spec format
                 (PyString.join "_"
                    (take 2 (PyString.split "." (SCHEMA_VERSION env))))
                 (delete "engine" kwargs)
                 {| active := "default"; max_rows_disabled := true |}),
          s)
    /\ snd (_spec_to_mimebundle_with_engine env spec format mode kwargs s) = s.
Proof.
  intros Hres.
  destruct (resolved_vlconvert_imported env _ _ Hres) as [[vlc Hvlc] _].
  exists vlc. split; [exact Hvlc |].
  assert (Hrun : _spec_to_mimebundle_with_engine env spec format mode kwargs s
                 = (fst (vlconvert_dispatch vlc spec format
                           (PyString.join "_"
                              (take 2 (PyString.split "." (SCHEMA_VERSION env))))
                           (delete "engine" kwargs)
                           {| active := "default"; max_rows_disabled := true |}),
                    s)).
  { unfold _spec_to_mimebundle_with_engine, bind, lift.
    rewrite Hres, Hvlc. cbn [String.eqb Ascii.eqb Bool.eqb import_package ret].
    apply with_default_unlimited. }
  split; [exact Hrun | rewrite Hrun; reflexivity].
Qed.

Lemma transformer_override_restored_witness :
  _validate_normalize_engine (sample_env (Some failing_vl_convert) None)
    (default PyNone ((∅ : gmap string pyval) !! "engine")) "png"
  = Returned "vlconvert"
  /\ _spec_to_mimebundle_with_engine (sample_env (Some failing_vl_convert) None)
       sample_spec "png" (PyStr "vega-lite") ∅ sample_state
     = (Raised (PyExn (Foreign "RuntimeError") "conversion failed"),
        sample_state).
Proof.
  assert (Hres : _validate_normalize_engine
                   (sample_env (Some failing_vl_convert) None)
                   (default PyNone ((∅ : gmap string pyval) !! "engine")) "png"
                 = Returned "vlconvert") by reflexivity.
  split; [exact Hres |].
  destruct (transformer_override_restored
              (sample_env (Some failing_vl_convert) None) sample_spec "png"
              (PyStr "vega-lite") ∅ sample_state Hres)
    as [vlc [Hvlc [Hrun _]]].
  simpl in Hvlc. injection Hvlc as <-. exact Hrun.
Defined.

(** ** The number of entries of a returned mimebundle *)

Lemma bind_returned {A B : Type} (m : M A) (f : A -> M B)
    (s s' : registry_state) (b : B) :
  bind m f s = (Returned b, s') ->
  exists a s1, m s = (Returned a, s1) /\ f a s1 = (Returned b, s').
Proof.
  unfold bind. destruct (m s) as [[a | e] s1]; [eauto | discriminate].
Qed.

Lemma vlconvert_dispatch_single {Spec : Type} (vlc : vl_convert_module Spec)
    (spec : Spec) (format vl_version : string) (kwargs : gmap string pyval)
    (s s' : registry_state) (b : gmap string (payload Spec)) :
  vlconvert_dispatch vlc spec format vl_version kwargs s = (Returned b, s') ->
  size b = 1.
Proof.
  unfold vlconvert_dispatch.
  destruct (String.eqb format "vega");
    [| destruct (String.eqb format "svg");
       [| destruct (String.eqb format "png"); [| discriminate]]];
    intros (x & s1 & _ & [= <- _])%bind_returned; apply map_size_singleton.
Qed.

Lemma with_engine_entries {Spec : Type} (env : environment Spec) (spec : Spec)
    (format : string) (mode : pyval) (kwargs : gmap string pyval)
    (s s' : registry_state) (b : gmap string (payload Spec)) :
  _spec_to_mimebundle_with_engine env spec format mode kwargs s
  = (Returned b, s') ->
  size b = 1
  \/ exists saver,
       altair_saver env = Some saver
       /\ render saver spec format mode (delete "engine" kwargs) s
          = (Returned b, s').
Proof.
  unfold _spec_to_mimebundle_with_engine.
  intros (n & s1 & Hres & Hrun)%bind_returned.
  unfold lift in Hres. injection Hres as _ <-.
  destruct (String.eqb n "vlconvert").
  - apply bind_returned in Hrun as (vlc & s2 & _ & Hrun).
    rewrite with_default_unlimited in Hrun.
    destruct (vlconvert_dispatch vlc spec format _ _ _) as [r s3] eqn:Hbody.
    simpl in Hrun. injection Hrun as -> _.
    left. eapply vlconvert_dispatch_single, Hbody.
  - destruct (String.eqb n "altairsaver"); [| discriminate].
    apply bind_returned in Hrun as (saver & s2 & Himp & Hrun).
    right. exists saver. unfold import_package in Himp.
    destruct (altair_saver env) as [m |]; [| discriminate].
    injection Himp as -> <-. split; [reflexivity | exact Hrun].
Qed.

(** Where a returned mimebundle comes from: it is built here, with one
    entry, or it is what [altair_saver.render] returned for a format of
    the engine branch. *)
Lemma returned_bundle_cases {Spec : Type} (env : environment Spec)
    (spec : Spec)
    (format mode vega_version vegaembed_version vegalite_version : pyval)
    (kwargs : gmap string pyval) (s s' : registry_state)
    (b : gmap string (payload Spec)) :
  spec_to_mimebundle env spec format mode vega_version vegaembed_version
    vegalite_version kwargs s = (Returned b, s') ->
  size b = 1
  \/ exists saver f,
       altair_saver env = Some saver
       /\ format = PyStr f
       /\ render saver spec f mode (delete "engine" kwargs) s
          = (Returned b, s').
Proof.
  unfold spec_to_mimebundle.
  destruct (negb (py_in mode ["vega"; "vega-lite"])); [discriminate |].
  destruct (py_eq_str mode "vega" && py_eq_str format "vega").
  { destruct vega_version; try discriminate;
      intros (x & s1 & _ & [= <- _])%bind_returned;
      left; apply map_size_singleton. }
  destruct format as [| ? | ? | ? ? | f]; try discriminate.
  destruct (existsb (String.eqb f) ["png"; "svg"; "pdf"; "vega"]).
  { intros [Hone | (saver & Hs & Hr)]%with_engine_entries; [left; exact Hone |].
    right. exists saver, f. auto. }
  destruct (String.eqb f "html").
  { intros (x & s1 & _ & [= <- _])%bind_returned.
    left. apply map_size_singleton. }
  destruct (String.eqb f "vega-lite").
  { destruct (debug env && negb (py_eq_str mode "vega-lite"));
      [discriminate |].
    destruct (py_eq_str mode "vega"); [discriminate |].
    destruct vegalite_version; try discriminate;
      intros (x & s1 & _ & [= <- _])%bind_returned;
      left; apply map_size_singleton. }
  destruct (String.eqb f "json"); [| discriminate].
  intros [= <- _]. left. apply map_size_singleton.
Qed.

(** C10: every mimebundle that a call returns has exactly one entry, on
    every path of [spec_to_mimebundle] and of
    [_spec_to_mimebundle_with_engine], the altair_saver path included:
    there the result is the saver's own, a mimebundle by the saver's
    contract. *)
Theorem returned_bundle_single_entry {Spec : Type} (env : environment Spec)
    (spec : Spec) :
  render_returns_mimebundle env ->
  (forall (format mode vega_version vegaembed_version vegalite_version : pyval)
          (kwargs : gmap string pyval) (s s' : registry_state)
          (b : gmap string (payload Spec)),
     spec_to_mimebundle env spec format mode vega_version vegaembed_version
       vegalite_version kwargs s = (Returned b, s') ->
     size b = 1)
  /\ (forall (format : string) (mode : pyval) (kwargs : gmap string pyval)
             (s s' : registry_state) (b : gmap string (payload Spec)),
        _spec_to_mimebundle_with_engine env spec format mode kwargs s
        = (Returned b, s') ->
        size b = 1).
Proof.
  intros Hsaver. split.
  - intros format mode vega_version vegaembed_version vegalite_version kwargs
      s s' b Hrun.
    destruct (returned_bundle_cases env spec _ _ _ _ _ _ _ _ _ Hrun)
      as [Hone | (saver & f & Hs & _ & Hr)]; [exact Hone |].
    exact (Hsaver saver spec f mode _ s s' b Hs Hr).
  - intros format mode kwargs s s' b Hrun.
    destruct (with_engine_entries env spec format mode kwargs s s' b Hrun)
      as [Hone | (saver & Hs & Hr)]; [exact Hone |].
    exact (Hsaver saver spec format mode _ s s' b Hs Hr).
Qed.

Lemma returned_bundle_single_entry_witness :
  render_returns_mimebundle
    (sample_env (Some sample_vl_convert) (Some sample_saver))
  /\ exists b,
       spec_to_mimebundle
         (sample_env (Some sample_vl_convert) (Some sample_saver)) sample_spec
         (PyStr "pdf") (PyStr "vega-lite") PyNone PyNone PyNone
         (<[ "engine" := PyStr "altair_saver" ]> ∅) sample_state
       = (Returned b, sample_state)
       /\ size b = 1.
Proof.
  assert (Hsaver : render_returns_mimebundle
                     (sample_env (Some sample_vl_convert) (Some sample_saver))).
  { intros saver spec format mode kwargs s s' b Hs Hr.
    simpl in Hs. injection Hs as <-.
    injection Hr as <- _. apply map_size_singleton. }
  assert (Hrun : spec_to_mimebundle
                   (sample_env (Some sample_vl_convert) (Some sample_saver))
                   sample_spec (PyStr "pdf") (PyStr "vega-lite") PyNone PyNone
                   PyNone (<[ "engine" := PyStr "altair_saver" ]> ∅)
                   sample_state
                 = (Returned {[ "pdf" := PaySpec sample_spec ]}, sample_state))
    by reflexivity.
  split; [exact Hsaver |].
  exists {[ "pdf" := PaySpec sample_spec ]}. split; [exact Hrun |].
  exact (proj1 (returned_bundle_single_entry
                  (sample_env (Some sample_vl_convert) (Some sample_saver))
                  sample_spec Hsaver)
           _ _ _ _ _ _ _ _ _ Hrun).
Defined.

(** ** More on the engine resolver *)

(** The only names the resolver answers with. *)
Lemma resolver_returned_name {Spec : Type} (env : environment Spec)
    (engine : pyval) (format n : string) :
  _validate_normalize_engine env engine format = Returned n ->
  n = "vlconvert" \/ n = "altairsaver".
Proof.
  unfold _validate_normalize_engine.
  destruct engine as [| b | z | m e | name]; try discriminate.
  - destruct (imported (vl_convert env) && negb (String.eqb format "pdf"));
      [intros [= <-]; auto |].
    destruct (imported (altair_saver env)); [intros [= <-]; auto |].
    destruct (String.eqb format "pdf"); discriminate.
  - destruct (String.eqb_spec (normalize_engine_name name) "vlconvert") as [Hn | _].
    + destruct (negb (imported (vl_convert env))); [discriminate |].
      destruct (String.eqb format "pdf"); [discriminate |].
      intros [= <-]. auto.
    + destruct (String.eqb_spec (normalize_engine_name name) "altairsaver")
        as [Hn | _]; [| discriminate].
      destruct (negb (imported (altair_saver env))); [discriminate |].
      intros [= <-]. auto.
Qed.

(** The resolver answers "altairsaver" only when the package is there. *)
Lemma resolved_altairsaver_imported {Spec : Type} (env : environment Spec)
    (engine : pyval) (format : string) :
  _validate_normalize_engine env engine format = Returned "altairsaver" ->
  is_Some (altair_saver env).
Proof.
  unfold _validate_normalize_engine.
  destruct engine as [| b | z | m e | name]; try discriminate.
  - destruct (imported (vl_convert env) && negb (String.eqb format "pdf"));
      [discriminate |].
    destruct (imported (altair_saver env)) eqn:Hs.
    + intros _. apply imported_true, Hs.
    + destruct (String.eqb format "pdf"); discriminate.
  - destruct (String.eqb_spec (normalize_engine_name name) "vlconvert") as [Hn | _].
    + destruct (negb (imported (vl_convert env))); [discriminate |].
      destruct (String.eqb format "pdf"); [discriminate |].
      intros [= H]. rewrite Hn in H. discriminate H.
    + destruct (String.eqb (normalize_engine_name name) "altairsaver");
        [| discriminate].
      destruct (imported (altair_saver env)) eqn:Hs; simpl; [| discriminate].
      intros _. apply imported_true, Hs.
Qed.

(** X1: whatever the override and the format, an answer of the resolver is
    one of the two engine names, the package of the engine it names is
    installed, and "vlconvert" is never the answer for format "pdf". *)
Theorem resolver_answer_sound {Spec : Type} (env : environment Spec)
    (engine : pyval) (format n : string) :
  _validate_normalize_engine env engine format = Returned n ->
  (n = "vlconvert" /\ is_Some (vl_convert env) /\ format <> "pdf")
  \/ (n = "altairsaver" /\ is_Some (altair_saver env)).
Proof.
  intros Hres.
  destruct (resolver_returned_name env engine format n Hres) as [-> | ->].
  - left. split; [reflexivity |].
    exact (resolved_vlconvert_imported env engine format Hres).
  - right. split; [reflexivity |].
    exact (resolved_altairsaver_imported env engine format Hres).
Qed.

Lemma resolver_answer_sound_witness :
  ("vlconvert" = "vlconvert"
   /\ is_Some (vl_convert (sample_env (Some sample_vl_convert) None))
   /\ "svg" <> "pdf")
  \/ ("vlconvert" = "altairsaver"
      /\ is_Some (altair_saver (sample_env (Some sample_vl_convert) None))).
Proof.
  apply (resolver_answer_sound (sample_env (Some sample_vl_convert) None)
           (PyStr "VL-Convert") "svg" "vlconvert").
  reflexivity.
Defined.

Lemma resolver_failure_class {Spec : Type} (env : environment Spec)
    (engine : pyval) (format : string) (e : exn) :
  engine = PyNone \/ (exists name, engine = PyStr name) ->
  _validate_normalize_engine env engine format = Raised e ->
  exn_class e = ValueError.
Proof.
  intros [-> | [name ->]]; unfold _validate_normalize_engine.
  - destruct (imported (vl_convert env) && negb (String.eqb format "pdf"));
      [discriminate |].
    destruct (imported (altair_saver env)); [discriminate |].
    destruct (String.eqb format "pdf"); intros [= <-]; reflexivity.
  - destruct (String.eqb (normalize_engine_name name) "vlconvert").
    + destruct (negb (imported (vl_convert env))); [intros [= <-]; reflexivity |].
      destruct (String.eqb format "pdf"); [intros [= <-]; reflexivity |].
      discriminate.
    + destruct (String.eqb (normalize_engine_name name) "altairsaver").
      * destruct (negb (imported (altair_saver env)));
          [intros [= <-]; reflexivity | discriminate].
      * intros [= <-]. reflexivity.
Qed.

(** X2: with an override that is [None] or a string, every failure of the
    resolver is a [ValueError]. *)
Theorem resolver_failure_is_value_error {Spec : Type} (env : environment Spec)
    (engine : pyval) (format : string) (e : exn) :
  engine = PyNone \/ (exists name, engine = PyStr name) ->
  _validate_normalize_engine env engine format = Raised e ->
  exn_class e = ValueError.
Proof. apply resolver_failure_class. Qed.

Lemma resolver_failure_is_value_error_witness :
  exn_class (PyExn ValueError (invalid_engine_message "selenium")) = ValueError.
Proof.
  apply (resolver_failure_is_value_error
           (sample_env (Some sample_vl_convert) (Some sample_saver))
           (PyStr "selenium") "png").
  - right. exists "selenium". reflexivity.
  - reflexivity.
Defined.

(** X3: an override that is neither [None] nor a string has no [lower]
    method: the resolver raises [AttributeError], whatever is installed
    and whatever the format, and so does the render-with-engine call,
    before any converter runs. *)
Theorem non_string_engine_attribute_error {Spec : Type}
    (env : environment Spec) (engine : pyval) (spec : Spec) (format : string)
    (mode : pyval) (kwargs : gmap string pyval) (s : registry_state) :
  engine <> PyNone -> (forall name, engine <> PyStr name) ->
  let failure :=
    PyExn AttributeError
      ("'" +:+ type_name engine +:+ "' object has no attribute 'lower'") in
  _validate_normalize_engine env engine format = Raised failure
  /\ _spec_to_mimebundle_with_engine env spec format mode
       (<[ "engine" := engine ]> kwargs) s
     = (Raised failure, s).
Proof.
  intros Hnone Hstr failure.
  assert (Hres : _validate_normalize_engine env engine format = Raised failure).
  { unfold _validate_normalize_engine, failure.
    destruct engine as [| b | z | m e | name]; try reflexivity.
    - contradiction.
    - destruct (Hstr name). reflexivity. }
  split; [exact Hres |].
  apply with_engine_resolution_raises. rewrite lookup_insert_eq. exact Hres.
Qed.

Lemma non_string_engine_attribute_error_witness :
  _spec_to_mimebundle_with_engine
    (sample_env (Some sample_vl_convert) (Some sample_saver)) sample_spec "png"
    (PyStr "vega-lite") (<[ "engine" := PyInt 3 ]> ∅) sample_state
  = (Raised (PyExn AttributeError "'int' object has no attribute 'lower'"),
     sample_state).
Proof.
  apply (non_string_engine_attribute_error
           (sample_env (Some sample_vl_convert) (Some sample_saver))
           (PyInt 3) sample_spec "png" (PyStr "vega-lite") ∅ sample_state);
    discriminate.
Defined.

(** X4: an explicit override never falls back to the other engine. When
    the package of the engine it names is missing, the resolver raises
    [ValueError] naming that package, for every format and even when the
    other package is installed. *)
Theorem explicit_engine_no_fallback {Spec : Type} (env : environment Spec)
    (engine format : string) :
  (normalize_engine_name engine = "vlconvert" -> vl_convert env = None ->
   _validate_normalize_engine env (PyStr engine) format
   = Raised (PyExn ValueError
       "The 'vl-convert' conversion engine requires the vl-convert-python package"))
  /\ (normalize_engine_name engine = "altairsaver" ->
      altair_saver env = None ->
      _validate_normalize_engine env (PyStr engine) format
      = Raised (PyExn ValueError
          "The 'altair_saver' conversion engine requires the altair_saver package")).
Proof.
  unfold _validate_normalize_engine. split.
  - intros -> Hv%imported_false. rewrite Hv. reflexivity.
  - intros -> Hs%imported_false. rewrite Hs. reflexivity.
Qed.

Lemma explicit_engine_no_fallback_witness :
  _validate_normalize_engine (sample_env None (Some sample_saver))
    (PyStr "vl-convert") "png"
  = Raised (PyExn ValueError
      "The 'vl-convert' conversion engine requires the vl-convert-python package")
  /\ _validate_normalize_engine (sample_env (Some sample_vl_convert) None)
       (PyStr "Altair_Saver") "png"
     = Raised (PyExn ValueError
         "The 'altair_saver' conversion engine requires the altair_saver package").
Proof.
  split.
  - apply (proj1 (explicit_engine_no_fallback
                    (sample_env None (Some sample_saver)) "vl-convert" "png"));
      reflexivity.
  - apply (proj2 (explicit_engine_no_fallback
                    (sample_env (Some sample_vl_convert) None)
                    "Altair_Saver" "png"));
      reflexivity.
Defined.

(** X5: an explicit override is honoured when its package is installed:
    "vlconvert" for every format but "pdf", and "altairsaver" for every
    format, also when vl-convert is installed and would be the default. *)
Theorem explicit_engine_accepted {Spec : Type} (env : environment Spec)
    (engine format : string) :
  (normalize_engine_name engine = "vlconvert" -> is_Some (vl_convert env) ->
   format <> "pdf" ->
   _validate_normalize_engine env (PyStr engine) format = Returned "vlconvert")
  /\ (normalize_engine_name engine = "altairsaver" ->
      is_Some (altair_saver env) ->
      _validate_normalize_engine env (PyStr engine) format
      = Returned "altairsaver").
Proof.
  unfold _validate_normalize_engine. split.
  - intros -> Hv%imported_true Hf%eqb_pdf_false. rewrite Hv, Hf. reflexivity.
  - intros -> Hs%imported_true. rewrite Hs. reflexivity.
Qed.

Lemma explicit_engine_accepted_witness :
  _validate_normalize_engine
    (sample_env (Some sample_vl_convert) (Some sample_saver))
    (PyStr "VL_Convert") "svg" = Returned "vlconvert"
  /\ _validate_normalize_engine
       (sample_env (Some sample_vl_convert) (Some sample_saver))
       (PyStr "altair-saver") "png" = Returned "altairsaver".
Proof.
  split.
  - apply (proj1 (explicit_engine_accepted
                    (sample_env (Some sample_vl_convert) (Some sample_saver))
                    "VL_Convert" "svg"));
      [reflexivity | eexists; reflexivity | discriminate].
  - apply (proj2 (explicit_engine_accepted
                    (sample_env (Some sample_vl_convert) (Some sample_saver))
                    "altair-saver" "png"));
      [reflexivity | eexists; reflexivity].
Defined.

(** ** Normalization of the engine name *)

Lemma lower_char_idempotent (c : ascii) :
  PyString.lower_char (PyString.lower_char c) = PyString.lower_char c.
Proof. destruct c as [[] [] [] [] [] [] [] []]; reflexivity. Qed.

(** Lowering neither makes nor removes a hyphen or an underscore. *)
Lemma lower_char_hyphen (c : ascii) :
  Ascii.eqb (PyString.lower_char c) "-" = Ascii.eqb c "-".
Proof. destruct c as [[] [] [] [] [] [] [] []]; reflexivity. Qed.

Lemma lower_char_underscore (c : ascii) :
  Ascii.eqb (PyString.lower_char c) "_" = Ascii.eqb c "_".
Proof. destruct c as [[] [] [] [] [] [] [] []]; reflexivity. Qed.

Lemma lower_idempotent (s : string) :
  PyString.lower (PyString.lower s) = PyString.lower s.
Proof.
  induction s as [| c s IH]; simpl; [reflexivity |].
  rewrite lower_char_idempotent, IH. reflexivity.
Qed.

Lemma lower_remove (c : ascii) (s : string) :
  (forall d, Ascii.eqb (PyString.lower_char d) c = Ascii.eqb d c) ->
  PyString.lower (PyString.replace c EmptyString s)
  = PyString.replace c EmptyString (PyString.lower s).
Proof.
  intros Hc. induction s as [| d s IH]; [reflexivity |].
  cbn [PyString.lower PyString.replace]. rewrite Hc.
  destruct (Ascii.eqb d c); cbn [append PyString.lower].
  - exact IH.
  - rewrite IH. reflexivity.
Qed.

Lemma contains_remove_same (c : ascii) (s : string) :
  PyString.contains c (PyString.replace c EmptyString s) = false.
Proof.
  induction s as [| d s IH]; simpl; [reflexivity |].
  destruct (Ascii.eqb d c) eqn:Hd; simpl; [exact IH |].
  rewrite Hd, IH. reflexivity.
Qed.

Lemma contains_remove_other (c d : ascii) (s : string) :
  PyString.contains d s = false ->
  PyString.contains d (PyString.replace c EmptyString s) = false.
Proof.
  induction s as [| a s IH]; simpl; [reflexivity |].
  intros [Ha Hs]%orb_false_elim.
  destruct (Ascii.eqb a c); simpl; [auto |].
  rewrite Ha. auto.
Qed.

Lemma remove_absent (c : ascii) (s : string) :
  PyString.contains c s = false -> PyString.replace c EmptyString s = s.
Proof.
  induction s as [| d s IH]; simpl; [reflexivity |].
  intros [Hd Hs]%orb_false_elim. rewrite Hd, IH by exact Hs. reflexivity.
Qed.

Lemma normalized_no_separator (engine : string) :
  PyString.contains "-" (normalize_engine_name engine) = false
  /\ PyString.contains "_" (normalize_engine_name engine) = false.
Proof.
  unfold normalize_engine_name. split.
  - apply contains_remove_other, contains_remove_same.
  - apply contains_remove_same.
Qed.

Lemma normalized_lower (engine : string) :
  PyString.lower (normalize_engine_name engine) = normalize_engine_name engine.
Proof.
  unfold normalize_engine_name.
  rewrite (lower_remove "_") by exact lower_char_underscore.
  rewrite (lower_remove "-") by exact lower_char_hyphen.
  rewrite lower_idempotent. reflexivity.
Qed.

(** X6: the normalized engine name is in normal form: it holds no "-" and
    no "_", and lowercasing leaves it as it is. *)
Theorem normalized_name_canonical (engine : string) :
  PyString.contains "-" (normalize_engine_name engine) = false
  /\ PyString.contains "_" (normalize_engine_name engine) = false
  /\ PyString.lower (normalize_engine_name engine)
     = normalize_engine_name engine.
Proof.
  destruct (normalized_no_separator engine) as [Hh Hu].
  split; [exact Hh |]. split; [exact Hu | apply normalized_lower].
Qed.

(** X7: normalizing is idempotent, so a name already normalized (as
    "vlconvert" or "altairsaver") is an accepted spelling of itself. *)
Theorem normalize_idempotent (engine : string) :
  normalize_engine_name (normalize_engine_name engine)
  = normalize_engine_name engine.
Proof.
  destruct (normalized_no_separator engine) as [Hh Hu].
  unfold normalize_engine_name at 1.
  rewrite normalized_lower.
  rewrite (remove_absent "-") by exact Hh.
  apply remove_absent, Hu.
Qed.

(** ** The version token handed to vl-convert *)

Lemma rev_app_append (s t u : string) :
  String.rev_app s t +:+ u = String.rev_app s (t +:+ u).
Proof.
  revert t. induction s as [| x s IH]; intros t; [reflexivity |].
  exact (IH (String x t)).
Qed.

Lemma rev_cons_append (d : ascii) (acc a : string) :
  String.rev (String d acc) +:+ a = String.rev acc +:+ String d a.
Proof.
  unfold String.rev. cbn [String.rev_app]. rewrite !rev_app_append. reflexivity.
Qed.

Lemma append_empty_r (a : string) : a +:+ EmptyString = a.
Proof.
  induction a as [| x a IH]; [reflexivity |].
  change (String x (a +:+ EmptyString) = String x a).
  f_equal. exact IH.
Qed.

(** A field without the separator, followed by the separator, is the next
    item of the split. *)
Lemma split_from_field (c : ascii) (a acc rest : string) :
  PyString.contains c a = false ->
  PyString.split_from c acc (a +:+ String c rest)
  = (String.rev acc +:+ a) :: PyString.split_from c EmptyString rest.
Proof.
  revert acc. induction a as [| d a IH]; intros acc; simpl.
  - intros _. rewrite Ascii.eqb_refl, append_empty_r. reflexivity.
  - intros [Hd Ha]%orb_false_elim. rewrite Hd, IH by exact Ha.
    rewrite rev_cons_append. reflexivity.
Qed.

(** A string without the separator is the last item of the split. *)
Lemma split_from_last (c : ascii) (a acc : string) :
  PyString.contains c a = false ->
  PyString.split_from c acc a = [String.rev acc +:+ a].
Proof.
  revert acc. induction a as [| d a IH]; intros acc; simpl.
  - intros _. rewrite append_empty_r. reflexivity.
  - intros [Hd Ha]%orb_false_elim. rewrite Hd, IH by exact Ha.
    rewrite rev_cons_append. reflexivity.
Qed.

(** X8: the token computed from the schema version keeps the first two
    dot-separated components and joins them with an underscore: a version
    "a.b.rest" gives "a_b" whatever follows the second dot, "a.b" gives
    "a_b", and a version without a dot is its own token. *)
Theorem vl_version_token (a b rest : string) :
  PyString.contains "." a = false ->
  PyString.contains "." b = false ->
  PyString.join "_"
    (take 2 (PyString.split "." (a +:+ "." +:+ b +:+ "." +:+ rest)))
  = a +:+ "_" +:+ b
  /\ PyString.join "_" (take 2 (PyString.split "." (a +:+ "." +:+ b)))
     = a +:+ "_" +:+ b
  /\ PyString.join "_" (take 2 (PyString.split "." a)) = a.
Proof.
  intros Ha Hb. unfold PyString.split.
  change (a +:+ "." +:+ b +:+ "." +:+ rest)
    with (a +:+ String "." (b +:+ String "." rest)).
  change (a +:+ "." +:+ b) with (a +:+ String "." b).
  split; [| split].
  - rewrite (split_from_field "." a) by exact Ha.
    rewrite (split_from_field "." b) by exact Hb.
    destruct (PyString.split_from "." EmptyString rest); reflexivity.
  - rewrite (split_from_field "." a) by exact Ha.
    rewrite (split_from_last "." b) by exact Hb. reflexivity.
  - rewrite (split_from_last "." a) by exact Ha. reflexivity.
Qed.

Lemma vl_version_token_witness :
  PyString.join "_" (take 2 (PyString.split "." "v5.2.0")) = "v5_2".
Proof.
  apply (proj1 (vl_version_token "v5" "2" "0" eq_refl eq_refl)).
Defined.

(** ** The other branches of [spec_to_mimebundle] *)

(** X9: with mode "vega-lite", format "vega-lite" and a non-empty string
    as [vegalite_version], the call returns the one-entry mapping from
    "application/vnd.vegalite.v<major>+json" to the spec, where <major> is
    the first character of [vegalite_version]; [vega_version] is not looked
    at and the registry is left as it was. *)
Theorem vegalite_passthrough {Spec : Type} (env : environment Spec)
    (spec : Spec) (major : ascii) (rest : string)
    (vega_version vegaembed_version : pyval) (kwargs : gmap string pyval)
    (s : registry_state) :
  let bundle : gmap string (payload Spec) :=
    {[ "application/vnd.vegalite.v" +:+ String major EmptyString +:+ "+json"
       := PaySpec spec ]} in
  spec_to_mimebundle env spec (PyStr "vega-lite") (PyStr "vega-lite")
    vega_version vegaembed_version (PyStr (String major rest)) kwargs s
  = (Returned bundle, s)
  /\ size bundle = 1.
Proof.
  split; [| apply map_size_singleton].
  unfold spec_to_mimebundle. cbn. destruct (debug env); reflexivity.
Qed.

(** X10: with a valid mode, a format that is none of the seven accepted
    strings (another string, a string in another case, or a value that is
    not a string) makes the call raise [ValueError] with the message that
    lists the seven; nothing is delegated. *)
Theorem unknown_format_rejected {Spec : Type} (env : environment Spec)
    (spec : Spec)
    (format mode vega_version vegaembed_version vegalite_version : pyval)
    (kwargs : gmap string pyval) (s : registry_state) :
  mode = PyStr "vega" \/ mode = PyStr "vega-lite" ->
  (forall f, In f ["html"; "json"; "png"; "svg"; "pdf"; "vega"; "vega-lite"] ->
             format <> PyStr f) ->
  spec_to_mimebundle env spec format mode vega_version vegaembed_version
    vegalite_version kwargs s
  = (Raised (PyExn ValueError
       "format must be one of ['html', 'json', 'png', 'svg', 'pdf', 'vega', 'vega-lite']"),
     s).
Proof.
  intros Hmode Hformat.
  assert (Hne : forall f,
             In f ["html"; "json"; "png"; "svg"; "pdf"; "vega"; "vega-lite"] ->
             py_eq_str format f = false).
  { intros f Hf. apply py_eq_str_false, Hformat, Hf. }
  unfold spec_to_mimebundle.
  replace (py_in mode ["vega"; "vega-lite"]) with true
    by (destruct Hmode as [-> | ->]; reflexivity).
  rewrite (Hne "vega") by (simpl; tauto). rewrite andb_false_r.
  cbn [negb].
  destruct format as [| ? | ? | ? ? | f]; try reflexivity.
  pose proof (Hne "png") as Hpng. pose proof (Hne "svg") as Hsvg.
  pose proof (Hne "pdf") as Hpdf. pose proof (Hne "vega") as Hvega.
  pose proof (Hne "html") as Hhtml. pose proof (Hne "vega-lite") as Hlite.
  pose proof (Hne "json") as Hjson.
  cbn [py_eq_str] in Hpng, Hsvg, Hpdf, Hvega, Hhtml, Hlite, Hjson.
  cbn [existsb].
  rewrite Hpng, Hsvg, Hpdf, Hvega, Hhtml, Hlite, Hjson by (simpl; tauto).
  reflexivity.
Qed.

Lemma unknown_format_rejected_witness :
  spec_to_mimebundle (sample_env (Some sample_vl_convert) (Some sample_saver))
    sample_spec (PyStr "PNG") (PyStr "vega-lite") PyNone PyNone PyNone ∅
    sample_state
  = (Raised (PyExn ValueError
       "format must be one of ['html', 'json', 'png', 'svg', 'pdf', 'vega', 'vega-lite']"),
     sample_state).
Proof.
  apply unknown_format_rejected.
  - right. reflexivity.
  - intros f Hf. simpl in Hf.
    repeat (destruct Hf as [<- | Hf]; [discriminate |]). contradiction.
Defined.

(** X11: with a valid mode and format "html", the call is the HTML
    generator's call, made with the mode, the three versions and the
    options as they came (an "engine" option included): its string comes
    back as the one entry "text/html", its exception and its registry
    state come back as they are. *)
Theorem html_delegation {Spec : Type} (env : environment Spec) (spec : Spec)
    (mode vega_version vegaembed_version vegalite_version : pyval)
    (kwargs : gmap string pyval) (s : registry_state) :
  mode = PyStr "vega" \/ mode = PyStr "vega-lite" ->
  spec_to_mimebundle env spec (PyStr "html") mode vega_version
    vegaembed_version vegalite_version kwargs s
  = match spec_to_html env spec mode vega_version vegaembed_version
            vegalite_version kwargs s with
    | (Returned html, s') => (Returned {[ "text/html" := PayText html ]}, s')
    | (Raised e, s') => (Raised e, s')
    end.
Proof.
  intros [-> | ->]; unfold spec_to_mimebundle, bind; cbn;
    destruct (spec_to_html env spec _ _ _ _ _ s) as [[html | e] s'];
    reflexivity.
Qed.

Lemma html_delegation_witness :
  spec_to_mimebundle (sample_env None None) sample_spec (PyStr "html")
    (PyStr "vega-lite") (PyStr "5.20.0") (PyStr "6.0.0") (PyStr "5.2.0")
    (<[ "engine" := PyStr "bogus" ]> ∅) sample_state
  = (Returned {[ "text/html" := PayText "<html/>" ]}, sample_state).
Proof.
  rewrite (html_delegation (sample_env None None) sample_spec
             (PyStr "vega-lite") (PyStr "5.20.0") (PyStr "6.0.0")
             (PyStr "5.2.0") (<[ "engine" := PyStr "bogus" ]> ∅) sample_state)
    by (right; reflexivity).
  reflexivity.
Defined.

(** X12: on the two passthrough paths a version that is a boolean or a
    number (an [int] or a [float]) cannot be indexed: the call raises
    [TypeError] naming the type, not [ValueError]. *)
Theorem numeric_version_type_error {Spec : Type} (env : environment Spec)
    (spec : Spec) (version other vegaembed_version : pyval)
    (kwargs : gmap string pyval) (s : registry_state) :
  (exists b, version = PyBool b) \/ (exists z, version = PyInt z)
  \/ (exists m e, version = PyFloat m e) ->
  let failure :=
    PyExn TypeError
      ("'" +:+ type_name version +:+ "' object is not subscriptable") in
  spec_to_mimebundle env spec (PyStr "vega") (PyStr "vega") version
    vegaembed_version other kwargs s
  = (Raised failure, s)
  /\ spec_to_mimebundle env spec (PyStr "vega-lite") (PyStr "vega-lite") other
       vegaembed_version version kwargs s
     = (Raised failure, s).
Proof.
  intros Hnum failure. unfold spec_to_mimebundle, failure.
  destruct Hnum as [[b ->] | [[z ->] | (m & e & ->)]];
    cbn; destruct (debug env); split; reflexivity.
Qed.

Lemma numeric_version_type_error_witness :
  spec_to_mimebundle (sample_env None None) sample_spec (PyStr "vega")
    (PyStr "vega") (PyInt 5) PyNone PyNone ∅ sample_state
  = (Raised (PyExn TypeError "'int' object is not subscriptable"),
     sample_state)
  /\ spec_to_mimebundle (sample_env None None) sample_spec (PyStr "vega-lite")
       (PyStr "vega-lite") PyNone PyNone (PyFloat 21 (-2)) ∅ sample_state
     = (Raised (PyExn TypeError "'float' object is not subscriptable"),
        sample_state).
Proof.
  split.
  - apply (numeric_version_type_error (sample_env None None) sample_spec
             (PyInt 5) PyNone PyNone ∅ sample_state).
    right. left. exists 5%Z. reflexivity.
  - apply (numeric_version_type_error (sample_env None None) sample_spec
             (PyFloat 21 (-2)) PyNone PyNone ∅ sample_state).
    right. right. exists 21%Z, (-2)%Z. reflexivity.
Defined.

(** ** The render-with-engine call as a whole *)

(** Formats of the engine branch reach [_spec_to_mimebundle_with_engine]
    with the options as they came; the three versions are not used. *)
Lemma engine_format_routed {Spec : Type} (env : environment Spec)
    (spec : Spec) (f : string)
    (mode vega_version vegaembed_version vegalite_version : pyval)
    (kwargs : gmap string pyval) (s : registry_state) :
  (mode = PyStr "vega" /\ f <> "vega") \/ mode = PyStr "vega-lite" ->
  In f ["png"; "svg"; "pdf"; "vega"] ->
  spec_to_mimebundle env spec (PyStr f) mode vega_version vegaembed_version
    vegalite_version kwargs s
  = _spec_to_mimebundle_with_engine env spec f mode kwargs s.
Proof.
  intros Hmode Hf. simpl in Hf.
  destruct Hmode as [[-> Hv] | ->];
    repeat (destruct Hf as [<- | Hf]; [try reflexivity; try congruence |]);
    contradiction.
Qed.

Lemma with_engine_vlconvert {Spec : Type} (env : environment Spec)
    (spec : Spec) (format : string) (mode : pyval)
    (kwargs : gmap string pyval) (s : registry_state)
    (vlc : vl_convert_module Spec) :
  _validate_normalize_engine env (default PyNone (kwargs !! "engine")) format
  = Returned "vlconvert" ->
  vl_convert env = Some vlc ->
  _spec_to_mimebundle_with_engine env spec format mode kwargs s
  = (fst (vlconvert_dispatch vlc spec format
            (PyString.join "_"
               (take 2 (PyString.split "." (SCHEMA_VERSION env))))
            (delete "engine" kwargs)
            {| active := "default"; max_rows_disabled := true |}),
     s).
Proof.
  intros Hres Hvlc. unfold _spec_to_mimebundle_with_engine, bind, lift.
  rewrite Hres, Hvlc. cbn [String.eqb Ascii.eqb Bool.eqb import_package ret].
  apply with_default_unlimited.
Qed.

Lemma with_engine_altairsaver {Spec : Type} (env : environment Spec)
    (spec : Spec) (format : string) (mode : pyval)
    (kwargs : gmap string pyval) (s : registry_state)
    (saver : altair_saver_module Spec) :
  _validate_normalize_engine env (default PyNone (kwargs !! "engine")) format
  = Returned "altairsaver" ->
  altair_saver env = Some saver ->
  _spec_to_mimebundle_with_engine env spec format mode kwargs s
  = render saver spec format mode (delete "engine" kwargs) s.
Proof.
  intros Hres Hs. unfold _spec_to_mimebundle_with_engine, bind, lift.
  rewrite Hres, Hs. reflexivity.
Qed.

(** X13: the render-with-engine call ends in one of three ways and no
    other: the resolver's failure, with the registry untouched; the
    vl-convert dispatch, for a format that is not "pdf", with the registry
    restored; or the call of [altair_saver.render]. The import inside the
    function never fails and the branch for an unexpected engine name is
    never taken. *)
Theorem with_engine_outcomes {Spec : Type} (env : environment Spec)
    (spec : Spec) (format : string) (mode : pyval)
    (kwargs : gmap string pyval) (s : registry_state) :
  (exists e,
     _validate_normalize_engine env (default PyNone (kwargs !! "engine")) format
     = Raised e
     /\ _spec_to_mimebundle_with_engine env spec format mode kwargs s
        = (Raised e, s))
  \/ (exists vlc,
        vl_convert env = Some vlc /\ format <> "pdf"
        /\ _spec_to_mimebundle_with_engine env spec format mode kwargs s
           = (fst (vlconvert_dispatch vlc spec format
                     (PyString.join "_"
                        (take 2 (PyString.split "." (SCHEMA_VERSION env))))
                     (delete "engine" kwargs)
                     {| active := "default"; max_rows_disabled := true |}),
              s))
  \/ (exists saver,
        altair_saver env = Some saver
        /\ _spec_to_mimebundle_with_engine env spec format mode kwargs s
           = render saver spec format mode (delete "engine" kwargs) s).
Proof.
  destruct (_validate_normalize_engine env
              (default PyNone (kwargs !! "engine")) format) as [n | e] eqn:Hres.
  - destruct (resolver_returned_name env _ _ _ Hres) as [-> | ->].
    + destruct (resolved_vlconvert_imported env _ _ Hres) as [[vlc Hvlc] Hf].
      right. left. exists vlc. split; [exact Hvlc |]. split; [exact Hf |].
      apply with_engine_vlconvert; assumption.
    + destruct (resolved_altairsaver_imported env _ _ Hres) as [saver Hs].
      right. right. exists saver. split; [exact Hs |].
      apply with_engine_altairsaver; assumption.
  - left. exists e. split; [reflexivity |].
    apply with_engine_resolution_raises, Hres.
Qed.

(** X14: on the altair_saver path the "engine" option is consumed: the
    saver is called with the spec, the format, the mode and the options
    without their "engine" entry, every other option as it came, and what
    the saver returns or raises is the result of the call. *)
Theorem saver_receives_options_without_engine {Spec : Type}
    (env : environment Spec) (spec : Spec) (format : string) (mode : pyval)
    (kwargs : gmap string pyval) (s : registry_state) :
  _validate_normalize_engine env (default PyNone (kwargs !! "engine")) format
  = Returned "altairsaver" ->
  exists saver forwarded,
    altair_saver env = Some saver
    /\ _spec_to_mimebundle_with_engine env spec format mode kwargs s
       = render saver spec format mode forwarded s
    /\ forwarded !! "engine" = None
    /\ (forall k, k <> "engine" -> forwarded !! k = kwargs !! k).
Proof.
  intros Hres.
  destruct (resolved_altairsaver_imported env _ _ Hres) as [saver Hs].
  exists saver, (delete "engine" kwargs).
  split; [exact Hs |]. split; [apply with_engine_altairsaver; assumption |].
  split; [apply lookup_delete_eq |].
  intros k Hk. apply lookup_delete_ne. congruence.
Qed.

Lemma saver_receives_options_without_engine_witness :
  exists saver forwarded,
    altair_saver (sample_env None (Some sample_saver)) = Some saver
    /\ _spec_to_mimebundle_with_engine (sample_env None (Some sample_saver))
         sample_spec "pdf" (PyStr "vega-lite")
         (<[ "engine" := PyStr "altair_saver" ]> {[ "scale_factor" := PyInt 2 ]})
         sample_state
       = render saver sample_spec "pdf" (PyStr "vega-lite") forwarded
           sample_state
    /\ forwarded !! "engine" = None
    /\ (forall k, k <> "engine" ->
          forwarded !! k
          = (<[ "engine" := PyStr "altair_saver" ]>
               ({[ "scale_factor" := PyInt 2 ]} : gmap string pyval)) !! k).
Proof.
  apply (saver_receives_options_without_engine
           (sample_env None (Some sample_saver)) sample_spec "pdf"
           (PyStr "vega-lite")
           (<[ "engine" := PyStr "altair_saver" ]> {[ "scale_factor" := PyInt 2 ]})
           sample_state).
  rewrite lookup_insert_eq. reflexivity.
Defined.

(** ** Whole calls through the engine branch *)

(** What the dispatch makes of a converter's outcome. *)
Lemma dispatch_vega {Spec : Type} (vlc : vl_convert_module Spec) (spec : Spec)
    (vl_version : string) (kwargs : gmap string pyval) (s : registry_state) :
  fst (vlconvert_dispatch vlc spec "vega" vl_version kwargs s)
  = match fst (vegalite_to_vega vlc spec vl_version s) with
    | Returned vg => Returned {[ "application/vnd.vega.v5+json" := PaySpec vg ]}
    | Raised e => Raised e
    end.
Proof.
  unfold vlconvert_dispatch, bind. cbn.
  destruct (vegalite_to_vega vlc spec vl_version s) as [[vg | e] s1]; reflexivity.
Qed.

Lemma dispatch_svg {Spec : Type} (vlc : vl_convert_module Spec) (spec : Spec)
    (vl_version : string) (kwargs : gmap string pyval) (s : registry_state) :
  fst (vlconvert_dispatch vlc spec "svg" vl_version kwargs s)
  = match fst (vegalite_to_svg vlc spec vl_version s) with
    | Returned svg => Returned {[ "image/svg+xml" := PayText svg ]}
    | Raised e => Raised e
    end.
Proof.
  unfold vlconvert_dispatch, bind. cbn.
  destruct (vegalite_to_svg vlc spec vl_version s) as [[svg | e] s1]; reflexivity.
Qed.

Lemma dispatch_png {Spec : Type} (vlc : vl_convert_module Spec) (spec : Spec)
    (vl_version : string) (kwargs : gmap string pyval) (s : registry_state) :
  fst (vlconvert_dispatch vlc spec "png" vl_version kwargs s)
  = match fst (vegalite_to_png vlc spec vl_version
                 (default (PyFloat 1 0) (kwargs !! "scale_factor")) s) with
    | Returned png => Returned {[ "image/png" := PayBytes png ]}
    | Raised e => Raised e
    end.
Proof.
  unfold vlconvert_dispatch, bind. cbn.
  destruct (vegalite_to_png vlc spec vl_version _ s) as [[png | e] s1];
    reflexivity.
Qed.

(** X15: with mode "vega-lite", vl-convert installed and no "engine"
    option, formats "vega" and "svg" are converted by vl-convert, run with
    the default transformer and row limiting off and with the token of the
    schema version. The result is the one entry
    "application/vnd.vega.v5+json" (whatever [vega_version] says) or
    "image/svg+xml"; a converter's exception is the call's; the registry
    ends as it began. *)
Theorem vlconvert_default_vega_svg {Spec : Type} (env : environment Spec)
    (spec : Spec) (vega_version vegaembed_version vegalite_version : pyval)
    (kwargs : gmap string pyval) (s : registry_state)
    (vlc : vl_convert_module Spec) :
  vl_convert env = Some vlc ->
  kwargs !! "engine" = None ->
  let token :=
    PyString.join "_" (take 2 (PyString.split "." (SCHEMA_VERSION env))) in
  let overridden := {| active := "default"; max_rows_disabled := true |} in
  spec_to_mimebundle env spec (PyStr "vega") (PyStr "vega-lite") vega_version
    vegaembed_version vegalite_version kwargs s
  = (match fst (vegalite_to_vega vlc spec token overridden) with
     | Returned vg => Returned {[ "application/vnd.vega.v5+json" := PaySpec vg ]}
     | Raised e => Raised e
     end, s)
  /\ spec_to_mimebundle env spec (PyStr "svg") (PyStr "vega-lite") vega_version
       vegaembed_version vegalite_version kwargs s
     = (match fst (vegalite_to_svg vlc spec token overridden) with
        | Returned svg => Returned {[ "image/svg+xml" := PayText svg ]}
        | Raised e => Raised e
        end, s).
Proof.
  intros Hvlc Hengine token overridden.
  assert (Hres : forall f, f <> "pdf" ->
            _validate_normalize_engine env
              (default PyNone (kwargs !! "engine")) f = Returned "vlconvert").
  { intros f Hf%eqb_pdf_false. rewrite Hengine.
    unfold _validate_normalize_engine. cbn [default].
    rewrite Hvlc, Hf. reflexivity. }
  split.
  - rewrite engine_format_routed by (simpl; tauto).
    rewrite (with_engine_vlconvert env spec "vega" _ kwargs s vlc)
      by (try apply Hres; done).
    rewrite dispatch_vega. reflexivity.
  - rewrite engine_format_routed by (simpl; tauto).
    rewrite (with_engine_vlconvert env spec "svg" _ kwargs s vlc)
      by (try apply Hres; done).
    rewrite dispatch_svg. reflexivity.
Qed.

Lemma vlconvert_default_vega_svg_witness :
  spec_to_mimebundle (sample_env (Some sample_vl_convert) (Some sample_saver))
    sample_spec (PyStr "svg") (PyStr "vega-lite") (PyStr "4.17.0") PyNone PyNone
    ∅ sample_state
  = (Returned {[ "image/svg+xml" := PayText "<svg/>" ]}, sample_state).
Proof.
  apply (proj2 (vlconvert_default_vega_svg
                  (sample_env (Some sample_vl_convert) (Some sample_saver))
                  sample_spec (PyStr "4.17.0") PyNone PyNone ∅ sample_state
                  sample_vl_convert eq_refl (lookup_empty _))).
Defined.

(** X16: on the vl-convert path format "png" hands the converter the
    "scale_factor" option, or 1.0 when the option is absent, and returns
    its bytes as the one entry "image/png"; the registry ends as it
    began. *)
Theorem vlconvert_png_scale_factor {Spec : Type} (env : environment Spec)
    (spec : Spec) (mode : pyval) (kwargs : gmap string pyval)
    (s : registry_state) (vlc : vl_convert_module Spec) :
  _validate_normalize_engine env (default PyNone (kwargs !! "engine")) "png"
  = Returned "vlconvert" ->
  vl_convert env = Some vlc ->
  _spec_to_mimebundle_with_engine env spec "png" mode kwargs s
  = (match fst (vegalite_to_png vlc spec
                  (PyString.join "_"
                     (take 2 (PyString.split "." (SCHEMA_VERSION env))))
                  (default (PyFloat 1 0) (kwargs !! "scale_factor"))
                  {| active := "default"; max_rows_disabled := true |}) with
     | Returned png => Returned {[ "image/png" := PayBytes png ]}
     | Raised e => Raised e
     end, s).
Proof.
  intros Hres Hvlc.
  rewrite (with_engine_vlconvert env spec "png" mode kwargs s vlc Hres Hvlc).
  rewrite dispatch_png, lookup_delete_ne by discriminate. reflexivity.
Qed.

Lemma vlconvert_png_scale_factor_witness :
  _spec_to_mimebundle_with_engine (sample_env (Some scaling_vl_convert) None)
    sample_spec "png" (PyStr "vega-lite")
    (<[ "engine" := PyStr "vl-convert" ]> {[ "scale_factor" := PyInt 2 ]})
    sample_state
  = (Returned {[ "image/png" := PayBytes [Init.Byte.x02; Init.Byte.x02] ]},
     sample_state)
  /\ _spec_to_mimebundle_with_engine (sample_env (Some scaling_vl_convert) None)
       sample_spec "png" (PyStr "vega-lite") ∅ sample_state
     = (Returned {[ "image/png" := PayBytes [Init.Byte.x01] ]}, sample_state).
Proof.
  split.
  - rewrite (vlconvert_png_scale_factor
               (sample_env (Some scaling_vl_convert) None) sample_spec
               (PyStr "vega-lite")
               (<[ "engine" := PyStr "vl-convert" ]>
                  {[ "scale_factor" := PyInt 2 ]})
               sample_state scaling_vl_convert).
    + rewrite lookup_insert_ne by discriminate.
      rewrite lookup_singleton_eq. reflexivity.
    + rewrite lookup_insert_eq. reflexivity.
    + reflexivity.
  - rewrite (vlconvert_png_scale_factor
               (sample_env (Some scaling_vl_convert) None) sample_spec
               (PyStr "vega-lite") ∅ sample_state scaling_vl_convert).
    + rewrite lookup_empty. reflexivity.
    + rewrite lookup_empty. reflexivity.
    + reflexivity.
Defined.

(** X17: format "pdf" never goes through vl-convert, whether it is
    installed or asked for by name: with a valid mode the call either
    fails with the resolver's failure, the registry untouched, or is the
    call of [altair_saver.render] for "pdf". *)
Theorem pdf_only_through_saver {Spec : Type} (env : environment Spec)
    (spec : Spec) (mode vega_version vegaembed_version vegalite_version : pyval)
    (kwargs : gmap string pyval) (s : registry_state) :
  mode = PyStr "vega" \/ mode = PyStr "vega-lite" ->
  (exists e,
     _validate_normalize_engine env (default PyNone (kwargs !! "engine")) "pdf"
     = Raised e
     /\ spec_to_mimebundle env spec (PyStr "pdf") mode vega_version
          vegaembed_version vegalite_version kwargs s
        = (Raised e, s))
  \/ (exists saver,
        altair_saver env = Some saver
        /\ spec_to_mimebundle env spec (PyStr "pdf") mode vega_version
             vegaembed_version vegalite_version kwargs s
           = render saver spec "pdf" mode (delete "engine" kwargs) s).
Proof.
  intros Hmode.
  assert (Hrouted : (mode = PyStr "vega" /\ "pdf" <> "vega")
                    \/ mode = PyStr "vega-lite").
  { destruct Hmode as [-> | ->]; [left | right]; split; congruence. }
  rewrite (engine_format_routed env spec "pdf" mode vega_version
             vegaembed_version vegalite_version kwargs s Hrouted)
    by (simpl; tauto).
  destruct (_validate_normalize_engine env
              (default PyNone (kwargs !! "engine")) "pdf") as [n | e] eqn:Hres.
  - destruct (resolver_returned_name env _ _ _ Hres) as [-> | ->].
    + destruct (resolved_vlconvert_imported env _ _ Hres) as [_ Hf].
      contradiction.
    + destruct (resolved_altairsaver_imported env _ _ Hres) as [saver Hs].
      right. exists saver. split; [exact Hs |].
      apply with_engine_altairsaver; assumption.
  - left. exists e. split; [reflexivity |].
    apply with_engine_resolution_raises, Hres.
Qed.

Lemma pdf_only_through_saver_witness :
  (exists e,
     _validate_normalize_engine (sample_env (Some sample_vl_convert) None)
       (default PyNone ((∅ : gmap string pyval) !! "engine")) "pdf"
     = Raised e
     /\ spec_to_mimebundle (sample_env (Some sample_vl_convert) None)
          sample_spec (PyStr "pdf") (PyStr "vega-lite") PyNone PyNone PyNone ∅
          sample_state
        = (Raised e, sample_state))
  \/ (exists saver,
        altair_saver (sample_env (Some sample_vl_convert) None) = Some saver
        /\ spec_to_mimebundle (sample_env (Some sample_vl_convert) None)
             sample_spec (PyStr "pdf") (PyStr "vega-lite") PyNone PyNone PyNone
             ∅ sample_state
           = render saver sample_spec "pdf" (PyStr "vega-lite")
               (delete "engine" ∅) sample_state).
Proof.
  apply (pdf_only_through_saver (sample_env (Some sample_vl_convert) None)
           sample_spec (PyStr "vega-lite") PyNone PyNone PyNone ∅ sample_state).
  right. reflexivity.
Defined.

(** X18: with neither package installed, every format of the engine
    branch fails with [ValueError] and leaves the registry untouched,
    whether the "engine" option is absent, [None] or any string. *)
Theorem no_engine_installed {Spec : Type} (env : environment Spec)
    (spec : Spec) (f : string)
    (mode vega_version vegaembed_version vegalite_version : pyval)
    (kwargs : gmap string pyval) (s : registry_state) :
  vl_convert env = None -> altair_saver env = None ->
  (mode = PyStr "vega" /\ f <> "vega") \/ mode = PyStr "vega-lite" ->
  In f ["png"; "svg"; "pdf"; "vega"] ->
  kwargs !! "engine" = None \/ kwargs !! "engine" = Some PyNone
  \/ (exists name, kwargs !! "engine" = Some (PyStr name)) ->
  is_invalid_argument
    (fst (spec_to_mimebundle env spec (PyStr f) mode vega_version
            vegaembed_version vegalite_version kwargs s))
  /\ snd (spec_to_mimebundle env spec (PyStr f) mode vega_version
            vegaembed_version vegalite_version kwargs s) = s.
Proof.
  intros Hv Hs Hmode Hf Hengine.
  rewrite engine_format_routed by assumption.
  assert (Hshape : default PyNone (kwargs !! "engine") = PyNone
                   \/ exists name,
                        default PyNone (kwargs !! "engine") = PyStr name).
  { destruct Hengine as [-> | [-> | [name ->]]]; simpl; eauto. }
  destruct (_validate_normalize_engine env
              (default PyNone (kwargs !! "engine")) f) as [n | e] eqn:Hres.
  - destruct (resolver_returned_name env _ _ _ Hres) as [-> | ->].
    + destruct (resolved_vlconvert_imported env _ _ Hres) as [[vlc Hvlc] _].
      congruence.
    + destruct (resolved_altairsaver_imported env _ _ Hres) as [saver Hsaver].
      congruence.
  - rewrite (with_engine_resolution_raises env spec f mode kwargs s e Hres).
    pose proof (resolver_failure_class env _ f e Hshape Hres) as Hclass.
    destruct e as [k msg]. simpl in Hclass. subst k.
    split; [exists msg |]; reflexivity.
Qed.

Lemma no_engine_installed_witness :
  is_invalid_argument
    (fst (spec_to_mimebundle (sample_env None None) sample_spec (PyStr "png")
            (PyStr "vega-lite") PyNone PyNone PyNone ∅ sample_state))
  /\ snd (spec_to_mimebundle (sample_env None None) sample_spec (PyStr "png")
            (PyStr "vega-lite") PyNone PyNone PyNone ∅ sample_state)
     = sample_state.
Proof.
  apply (no_engine_installed (sample_env None None) sample_spec "png"
           (PyStr "vega-lite") PyNone PyNone PyNone ∅ sample_state).
  - reflexivity.
  - reflexivity.
  - right. reflexivity.
  - simpl. tauto.
  - left. apply lookup_empty.
Defined.

(** The engine branch without altair_saver leaves the registry as it
    was. *)
Lemma with_engine_frame {Spec : Type} (env : environment Spec) (spec : Spec)
    (format : string) (mode : pyval) (kwargs : gmap string pyval)
    (s : registry_state) :
  altair_saver env = None ->
  snd (_spec_to_mimebundle_with_engine env spec format mode kwargs s) = s.
Proof.
  intros Hs.
  destruct (_validate_normalize_engine env
              (default PyNone (kwargs !! "engine")) format) as [n | e] eqn:Hres.
  - destruct (resolver_returned_name env _ _ _ Hres) as [-> | ->].
    + destruct (resolved_vlconvert_imported env _ _ Hres) as [[vlc Hvlc] _].
      rewrite (with_engine_vlconvert env spec format mode kwargs s vlc Hres Hvlc).
      reflexivity.
    + destruct (resolved_altairsaver_imported env _ _ Hres) as [saver Hsaver].
      congruence.
  - rewrite (with_engine_resolution_raises env spec format mode kwargs s e Hres).
    reflexivity.
Qed.

(** X19: the registry is changed only by the HTML generator or by
    altair_saver. When altair_saver is not installed and the format is not
    "html", the call leaves the registry exactly as it found it, whatever
    the arguments are and whatever the vl-convert converter does to the
    registry or raises. *)
Theorem registry_frame {Spec : Type} (env : environment Spec) (spec : Spec)
    (format mode vega_version vegaembed_version vegalite_version : pyval)
    (kwargs : gmap string pyval) (s : registry_state) :
  altair_saver env = None -> format <> PyStr "html" ->
  snd (spec_to_mimebundle env spec format mode vega_version vegaembed_version
         vegalite_version kwargs s) = s.
Proof.
  intros Hs Hhtml. unfold spec_to_mimebundle.
  destruct (negb (py_in mode ["vega"; "vega-lite"])); [reflexivity |].
  destruct (py_eq_str mode "vega" && py_eq_str format "vega").
  { destruct vega_version as [| ? | ? | ? ? | v]; try reflexivity.
    destruct v; reflexivity. }
  destruct format as [| ? | ? | ? ? | f]; try reflexivity.
  destruct (existsb (String.eqb f) ["png"; "svg"; "pdf"; "vega"]).
  { apply with_engine_frame, Hs. }
  destruct (String.eqb_spec f "html") as [-> | _]; [congruence |].
  destruct (String.eqb f "vega-lite").
  { destruct (debug env && negb (py_eq_str mode "vega-lite")); [reflexivity |].
    destruct (py_eq_str mode "vega"); [reflexivity |].
    destruct vegalite_version as [| ? | ? | ? ? | v]; try reflexivity.
    destruct v; reflexivity. }
  destruct (String.eqb f "json"); reflexivity.
Qed.

Lemma registry_frame_witness :
  snd (spec_to_mimebundle (sample_env (Some failing_vl_convert) None)
         sample_spec (PyStr "svg") (PyStr "vega-lite") PyNone PyNone PyNone ∅
         sample_state)
  = sample_state.
Proof.
  apply (registry_frame (sample_env (Some failing_vl_convert) None)
           sample_spec (PyStr "svg") (PyStr "vega-lite") PyNone PyNone PyNone ∅
           sample_state); [reflexivity | discriminate].
Defined.

(** X20: called with a format that vl-convert has no branch for (neither
    "vega", "svg" nor "png") and vl-convert as the resolved engine, the
    render-with-engine call raises [ValueError] "Unexpected format"
    quoting the format, without calling the converter, and the registry
    ends as it began. *)
Theorem unexpected_format_rejected {Spec : Type} (env : environment Spec)
    (spec : Spec) (format : string) (mode : pyval)
    (kwargs : gmap string pyval) (s : registry_state) :
  format <> "vega" -> format <> "svg" -> format <> "png" ->
  _validate_normalize_engine env (default PyNone (kwargs !! "engine")) format
  = Returned "vlconvert" ->
  _spec_to_mimebundle_with_engine env spec format mode kwargs s
  = (Raised (PyExn ValueError ("Unexpected format " +:+ PyString.repr format)),
     s).
Proof.
  intros Hvega%String.eqb_neq Hsvg%String.eqb_neq Hpng%String.eqb_neq Hres.
  destruct (resolved_vlconvert_imported env _ _ Hres) as [[vlc Hvlc] _].
  rewrite (with_engine_vlconvert env spec format mode kwargs s vlc Hres Hvlc).
  unfold vlconvert_dispatch. rewrite Hvega, Hsvg, Hpng. reflexivity.
Qed.

Lemma unexpected_format_rejected_witness :
  _spec_to_mimebundle_with_engine (sample_env (Some failing_vl_convert) None)
    sample_spec "jpeg" (PyStr "vega-lite") ∅ sample_state
  = (Raised (PyExn ValueError "Unexpected format 'jpeg'"), sample_state).
Proof.
  apply (unexpected_format_rejected (sample_env (Some failing_vl_convert) None)
           sample_spec "jpeg" (PyStr "vega-lite") ∅ sample_state);
    try discriminate.
  rewrite lookup_empty. reflexivity.
Defined.
